(** * Comment board backend (src/app.py): admission, validation, listing, deletion

    A shallow embedding of the Flask application of [src/app.py].  Every view
    function is a pure function of the request, of the clock readings it takes
    and of the state it touches, and returns the response together with the
    state it leaves behind.

    Conventions of the model:
    - a Python [str] holding user text is a list of Unicode code points
      ([pystr]); dictionary keys and client addresses are [string]s;
    - [time.time()] is a rational number of seconds, [datetime.now(utc)] a
      number of microseconds since the epoch; arithmetic on them is exact
      (no floating-point rounding), and a [datetime] read back from the
      table denotes the instant that was stored (server clock zone UTC);
    - a request body is a dictionary with text values (what [get_json] gives
      for an object with string fields, and what [form.to_dict] always gives);
      bodies of another shape, on which the view raises, are not requests of
      the model, and no statement below says what the view answers in
      general, only what follows from an answer or from a text body;
    - the table behind [Comment] is the list of its rows in insertion order,
      with the behaviour of the SQLite database configured by default
      ([DB_PATH], line 13). *)

From Stdlib Require Import QArith Lqa.
From stdpp Require Import base option sorting gmap strings numbers list.

Local Open Scope Z_scope.

(** ** Python strings *)

Definition pystr := list N.

(** [py "msg"] is the code-point list of an ASCII literal. *)
Fixpoint py (s : string) : pystr :=
  match s with
  | EmptyString => []
  | String a s' => Ascii.N_of_ascii a :: py s'
  end.

(** "Аноним", the default author name (lines 36, 97 and 103). *)
Definition ANON : pystr := [1040; 1085; 1086; 1085; 1080; 1084]%N.

(** [str.isspace] on one code point: the characters [str.strip()] removes. *)
Definition isspace (c : N) : bool :=
  ((9 <=? c) && (c <=? 13) || (28 <=? c) && (c <=? 32)
   || (c =? 133) || (c =? 160) || (c =? 5760)
   || (8192 <=? c) && (c <=? 8202)
   || (c =? 8232) || (c =? 8233) || (c =? 8239) || (c =? 8287)
   || (c =? 12288))%N.

Fixpoint lstrip (s : pystr) : pystr :=
  match s with
  | [] => []
  | c :: s' => if isspace c then lstrip s' else s
  end.

Definition rstrip (s : pystr) : pystr := rev (lstrip (rev s)).

(** [s.strip()] *)
Definition strip (s : pystr) : pystr := rstrip (lstrip s).

(** [s[:n]] for a non-negative constant [n]. *)
Definition upto (n : nat) (s : pystr) : pystr := take n s.

(** Truth value of [dict.get(k)] on a dictionary of strings: [None] and the
    empty string are false. *)
Definition truthy (o : option pystr) : bool :=
  match o with
  | Some (_ :: _) => true
  | _ => false
  end.

(** [a or b], both operands being [dict.get] results. *)
Definition or_get (a b : option pystr) : option pystr :=
  if truthy a then a else b.

(** [a or s], the right operand being a string literal. *)
Definition or_str (a : option pystr) (s : pystr) : pystr :=
  match a with
  | Some (c :: r) => c :: r
  | _ => s
  end.

(** [s or t] on two strings. *)
Definition str_or (s t : pystr) : pystr :=
  match s with
  | [] => t
  | _ :: _ => s
  end.

(** [not s] *)
Definition is_empty (s : pystr) : bool :=
  match s with
  | [] => true
  | _ :: _ => false
  end.

(** ** Configuration (lines 14-18) *)

Definition RATE_LIMIT_WINDOW : Q := 60.
Definition RATE_LIMIT_MAX : nat := 5.

(** ** Clocks *)

(** [x < y] on readings of [time.time()]. *)
Definition Qltb (x y : Q) : bool :=
  match (x ?= y)%Q with
  | Lt => true
  | _ => false
  end.

(** A [datetime]: microseconds since the epoch. *)
Definition datetime := Z.

(** [d.timestamp()], in seconds. *)
Definition timestamp (d : datetime) : Q := d # 1000000.

(** [int(x)] on a number: truncation towards zero. *)
Definition int_of_Q (x : Q) : Z := Z.quot (Qnum x) (Z.pos (Qden x)).

(** ** The model class [Comment] (lines 33-49) *)

Module DTO.
(** The dictionary built by [to_dict]. *)
Record t := mk { id : Z; name : pystr; msg : pystr; ts : Z; approved : bool }.
End DTO.

Module Comment.
Record t := mk { id : Z; name : pystr; msg : pystr; ts : datetime; approved : bool }.

(** The [ts] entry is line 47 for a server whose zone is UTC and with an
    exact product; on another zone, or where the binary product rounds, the
    number differs.  The properties below use the entry only as a function
    of the stored row, never its value. *)
Definition to_dict (self : t) : DTO.t :=
  {| DTO.id := id self;
     DTO.name := name self;
     DTO.msg := msg self;
     DTO.ts := int_of_Q (timestamp (ts self) * 1000);
     DTO.approved := approved self |}.
End Comment.

(** ** The table [comments] *)

Module Table.
Definition t := list Comment.t.

(** Largest [id] in use, 0 for the empty table. *)
Definition max_id (tbl : t) : Z :=
  foldr (fun c m => Z.max (Comment.id c) m) 0 tbl.

(** The rowid SQLite gives an [INTEGER PRIMARY KEY] column declared
    without [AUTOINCREMENT], which is what line 35 declares: one more than
    the largest rowid in the table. *)
Definition next_id (tbl : t) : Z := max_id tbl + 1.

(** [db.session.add(Comment(name, msg, ts)); db.session.commit()]: the
    column default gives [approved = True]. *)
Definition add (name msg : pystr) (ts : datetime) (tbl : t) : Comment.t * t :=
  let c := {| Comment.id := next_id tbl; Comment.name := name;
              Comment.msg := msg; Comment.ts := ts;
              Comment.approved := true |} in
  (c, tbl ++ [c]).

(** [Comment.query.get(comment_id)], for an id the driver can bind. *)
Definition get (comment_id : Z) (tbl : t) : option Comment.t :=
  List.find (fun c => Comment.id c =? comment_id) tbl.

(** [db.session.delete(c); db.session.commit()] *)
Definition delete (c : Comment.t) (tbl : t) : t :=
  List.filter (fun d => negb (Comment.id d =? Comment.id c)) tbl.

(** [filter_by(approved=True)] *)
Definition filter_by_approved (tbl : t) : t := List.filter Comment.approved tbl.

Fixpoint insert_desc (c : Comment.t) (l : t) : t :=
  match l with
  | [] => [c]
  | d :: l' =>
      if Comment.ts d <=? Comment.ts c then c :: d :: l'
      else d :: insert_desc c l'
  end.

(** [order_by(ts.desc())]; rows with equal [ts] keep their table order. *)
Definition order_by_ts_desc (tbl : t) : t := foldr insert_desc [] tbl.

(** [OFFSET n]; the view only passes [n >= 0], and the driver binds it
    when it is below 2^63. *)
Definition offset (n : Z) (l : t) : t := drop (Z.to_nat n) l.

(** [LIMIT n]; in SQLite a negative [n] means no upper bound; the driver
    binds it when it is not below -2^63. *)
Definition limit (n : Z) (l : t) : t :=
  if n <? 0 then l else take (Z.to_nat n) l.
End Table.

(** ** Requests and responses *)

Record request := {
  remote_addr : option string;
  is_json : bool;
  json : gmap string pystr;     (* request.get_json() *)
  form : gmap string pystr;     (* request.form.to_dict() *)
  args : gmap string pystr;     (* query string *)
  headers : gmap string pystr
}.

Inductive body :=
| JError (code : string)                    (* {"error": code} *)
| JErrorDetail (code detail : string)       (* {"error": code, "detail": detail} *)
| JComment (c : DTO.t)
| JComments (cs : list DTO.t)
| JOk.                                      (* {"ok": True} *)

(** [jsonify(...), status] *)
Definition response := (body * Z)%type.

Definition status (r : response) : Z := snd r.

(** ** Application state: [rate_store] (line 53) and the table *)

Record state := {
  rate_store : gmap string (list Q);
  comments : Table.t
}.

(** A view function that works on the table only. *)
Definition view := request -> Table.t -> response * Table.t.

(** ** In-memory rate limiter (lines 55-68) *)

(** [request.remote_addr or "unknown"] *)
Definition client_ip (req : request) : string :=
  match remote_addr req with
  | Some (String a s) => String a s
  | _ => "unknown"%string
  end.

(** [[t for t in arr if now - t < RATE_LIMIT_WINDOW]] *)
Definition prune (now : Q) (arr : list Q) : list Q :=
  List.filter (fun t => Qltb (now - t) RATE_LIMIT_WINDOW) arr.

Definition rate_limited (func : view) (now : Q) (req : request) (st : state)
  : response * state :=
  let ip := client_ip req in
  let arr := default [] (rate_store st !! ip) in
  let arr := prune now arr in
  if (RATE_LIMIT_MAX <=? length arr)%nat then
    ((JErrorDetail "rate_limit_exceeded" "Max 5 posts per 60s", 429), st)
  else
    let arr := arr ++ [now] in
    let rs := <[ip := arr]> (rate_store st) in
    let '(resp, tbl) := func req (comments st) in
    (resp, {| rate_store := rs; comments := tbl |}).

(** ** API endpoints *)

Section Views.

(** [int(s)] on a query-string value; [None] stands for [ValueError]. *)
Variable int : pystr -> option Z.

(** [int(request.args.get(k, dflt))] *)
Definition int_arg (k : string) (dflt : Z) (req : request) : option Z :=
  match args req !! k with
  | Some s => int s
  | None => Some dflt
  end.

(** GET /api/comments (lines 75-86); both branches of line 84 name the
    model of the table [comments]. *)
Definition get_comments (req : request) (tbl : Table.t) : response :=
  match int_arg "limit" 100 req with
  | None => (JError "invalid pagination", 400)
  | Some l =>
      let limit := Z.min 200 l in
      match int_arg "offset" 0 req with
      | None => (JError "invalid pagination", 400)
      | Some o =>
          let offset := Z.max 0 o in
          let items :=
            Table.limit limit
              (Table.offset offset
                 (Table.order_by_ts_desc (Table.filter_by_approved tbl))) in
          (JComments (map Comment.to_dict items), 200)
      end
  end.

End Views.

(** The body of POST /api/comments (lines 90-106); [utcnow] is the reading
    of [datetime.now(timezone.utc)] on line 103. *)
Definition post_comment (utcnow : datetime) : view := fun req tbl =>
  let data := if is_json req then json req else form req in
  let name := upto 80 (strip (or_str (data !! "name"%string) ANON)) in
  let msg :=
    upto 2000
      (strip (or_str (or_get (data !! "msg"%string) (data !! "message"%string)) [])) in
  if is_empty msg then ((JError "empty_message", 400), tbl)
  else
    let '(c, tbl') := Table.add (str_or name ANON) msg utcnow tbl in
    ((JComment (Comment.to_dict c), 201), tbl').

(** POST /api/comments as routed: the view under its decorator (line 89);
    [now] is the reading of [time.time()] on line 59. *)
Definition post_comment_route (now : Q) (utcnow : datetime) (req : request)
  (st : state) : response * state :=
  rate_limited (post_comment utcnow) now req st.

(** DELETE /api/comments/<comment_id> (lines 108-119); [ADMIN_KEY] is the
    value read from the environment on line 14. *)
Definition delete_comment (ADMIN_KEY : pystr) (comment_id : Z) : view :=
  fun req tbl =>
  let key :=
    or_str (or_get (headers req !! "X-ADMIN-KEY"%string)
                   (args req !! "admin_key"%string)) [] in
  if is_empty ADMIN_KEY || negb (bool_decide (key = ADMIN_KEY)) then
    ((JError "forbidden", 403), tbl)
  else
    match Table.get comment_id tbl with
    | None => ((JError "not_found", 404), tbl)
    | Some c => ((JOk, 200), Table.delete c tbl)
    end.

Definition delete_comment_route (ADMIN_KEY : pystr) (comment_id : Z)
  (req : request) (st : state) : response * state :=
  let '(resp, tbl) := delete_comment ADMIN_KEY comment_id req (comments st) in
  (resp, {| rate_store := rate_store st; comments := tbl |}).

(** ** Sequences of mutating requests *)

Inductive op :=
| Create (now : Q) (utcnow : datetime) (req : request)
| Delete (comment_id : Z) (req : request).

Definition step (ADMIN_KEY : pystr) (o : op) (st : state) : response * state :=
  match o with
  | Create now utcnow req => post_comment_route now utcnow req st
  | Delete comment_id req => delete_comment_route ADMIN_KEY comment_id req st
  end.

(** Serves the requests in order; returns the responses and the last state. *)
Fixpoint run (ADMIN_KEY : pystr) (ops : list op) (st : state)
  : list response * state :=
  match ops with
  | [] => ([], st)
  | o :: ops' =>
      let '(r, st1) := step ADMIN_KEY o st in
      let '(rs, st2) := run ADMIN_KEY ops' st1 in
      (r :: rs, st2)
  end.

(** The ids handed out: those of the 201 responses, in order. *)
Definition assigned_ids (rs : list response) : list Z :=
  omap (fun r : response =>
          match r with
          | (JComment d, 201) => Some (DTO.id d)
          | _ => None
          end) rs.

(** ** Concrete inputs used by the examples *)

Fixpoint digits (acc : Z) (s : pystr) : option Z :=
  match s with
  | [] => Some acc
  | c :: s' =>
      if ((48 <=? c) && (c <=? 57))%N then digits (10 * acc + Z.of_N (c - 48)) s'
      else None
  end.

(** Plain decimal literals, the everyday part of what [int] accepts:
    optional sign, ASCII digits, surrounding whitespace. *)
Definition int_decimal (s : pystr) : option Z :=
  match strip s with
  | [] => None
  | 45%N :: d :: r => Z.opp <$> digits 0 (d :: r)
  | 43%N :: d :: r => digits 0 (d :: r)
  | r => digits 0 r
  end.

Definition init : state := {| rate_store := ∅; comments := [] |}.

(** A JSON POST from [ip] with the given fields. *)
Definition post_req (ip : string) (fields : list (string * pystr)) : request :=
  {| remote_addr := Some ip; is_json := true; json := list_to_map fields;
     form := ∅; args := ∅; headers := ∅ |}.

(** A GET or DELETE with the given query string and headers. *)
Definition query_req (q hs : list (string * pystr)) : request :=
  {| remote_addr := Some "10.0.0.1"%string; is_json := false; json := ∅;
     form := ∅; args := list_to_map q; headers := list_to_map hs |}.

(** [n] approved rows with ids [1..n], the row of id [i] created at [i]. *)
Definition rows (n : nat) : Table.t :=
  map (fun i => {| Comment.id := Z.of_nat i; Comment.name := ANON;
                   Comment.msg := py "hi"; Comment.ts := Z.of_nat i;
                   Comment.approved := true |}) (seq 1 n).

(** A client that posted at 0 and then five times from 100 to 104. *)
Definition busy : state :=
  {| rate_store := {[ "1.2.3.4"%string := [0; 100; 101; 102; 103; 104]%Q ]};
     comments := [] |}.

Definition ann_req : request :=
  post_req "1.2.3.4" [("name"%string, py "Ann"); ("msg"%string, py "hi")].

(** The row that [ann_req] creates in the empty table at instant 1234567. *)
Definition ann_row : Comment.t :=
  {| Comment.id := 1; Comment.name := py "Ann"; Comment.msg := py "hi";
     Comment.ts := 1234567; Comment.approved := true |}.

(** Whitespace under [msg], the empty string under [message]. *)
Definition blank_req : request :=
  post_req "1.2.3.4" [("msg"%string, py "   "); ("message"%string, [])].

(** Different texts under the two keys. *)
Definition both_req : request :=
  post_req "1.2.3.4" [("msg"%string, py "a"); ("message"%string, py "b")].

(** A listing request asking for a negative page size. *)
Definition neg_limit_req : request := query_req [("limit"%string, py "-1")] [].

(** A delete request carrying the key "k". *)
Definition admin_req : request := query_req [] [("X-ADMIN-KEY"%string, py "k")].

(** ** Vocabulary of the statements *)

(** [a] may stand before [b] in a listing: [a] is not older than [b]. *)
Definition newer_first (a b : Comment.t) : Prop := Comment.ts b <= Comment.ts a.

(** The ids present in a table. *)
Definition ids (tbl : Table.t) : list Z := map Comment.id tbl.

(** An approved row created at [utcnow] or later. *)
Definition not_older (utcnow : datetime) (c : Comment.t) : bool :=
  Comment.approved c && (utcnow <=? Comment.ts c).

(** [x < y] on clock readings is decidable, so that a list of readings can
    be filtered by it. *)
#[global] Instance Qlt_decision (x y : Q) : Decision (x < y)%Q :=
  Z_lt_dec (Qnum x * QDen y) (Qnum y * QDen x).

(** The message field is blank: absent, empty, or whitespace only. *)
Definition blank (o : option pystr) : Prop := strip (default [] o) = [].

(** Three listing requests: a page of two, the page of three after it, and
    the page of five that spans both. *)
Definition first_page_req : request :=
  query_req [("limit"%string, py "2"); ("offset"%string, py "1")] [].

Definition next_page_req : request :=
  query_req [("limit"%string, py "3"); ("offset"%string, py "3")] [].

Definition span_page_req : request :=
  query_req [("limit"%string, py "5"); ("offset"%string, py "1")] [].

(** The listing request without parameters. *)
Definition plain_req : request := query_req [] [].

(** A delete request with a wrong key in the header and the key "k" in the
    query string. *)
Definition two_keys_req : request :=
  query_req [("admin_key"%string, py "k")] [("X-ADMIN-KEY"%string, py "x")].

(** A delete request with the key "k" in the query string only. *)
Definition query_key_req : request := query_req [("admin_key"%string, py "k")] [].

(** Six creation requests of one address within a minute, with a delete and
    a request of another address in between. *)
Definition burst : list op :=
  [Create 0 0 ann_req; Create 10 0 blank_req; Create 20 0 ann_req;
   Delete 1 admin_req; Create 25 0 (post_req "5.6.7.8" [("msg"%string, py "yo")]);
   Create 30 0 ann_req; Create 40 0 ann_req; Create 59 0 ann_req].

(** Address "1.2.3.4" has posted at 100, 101, 102, 103 and 104, address
    "5.6.7.8" at 100, 101, 102 and 103. *)
Definition yo_req : request := post_req "5.6.7.8" [("msg"%string, py "yo")].

Definition two_clients : state :=
  snd (run [] [Create 100 0 ann_req; Create 100 0 yo_req;
               Create 101 0 ann_req; Create 101 0 yo_req;
               Create 102 0 ann_req; Create 102 0 yo_req;
               Create 103 0 ann_req; Create 103 0 yo_req;
               Create 104 0 ann_req] init).

(** The row of id [i] in [rows n]. *)
Definition nth_row (i : Z) : Comment.t :=
  {| Comment.id := i; Comment.name := ANON; Comment.msg := py "hi";
     Comment.ts := i; Comment.approved := true |}.

(** A table of 100 rows, all created after instant 0, and no address on
    record. *)
Definition crowded : state := {| rate_store := ∅; comments := rows 100 |}.

(** A listing request that skips one record. *)
Definition skip_one_req : request := query_req [("offset"%string, py "1")] [].

(** ** Further vocabulary *)

(** Every character of [s] is whitespace ([s] may be empty). *)
Definition all_space (s : pystr) : Prop := Forall (fun c => isspace c = true) s.

(** The text a body supplies as its message: what stands under [msg],
    unless that is absent or empty, when it is what stands under [message]. *)
Definition effective_message (data : gmap string pystr) : pystr :=
  match data !! "msg"%string with
  | Some (c :: r) => c :: r
  | _ => default [] (data !! "message"%string)
  end.

(** The timestamps recorded for an address. *)
Definition entry (st : state) (ip : string) : list Q :=
  default [] (rate_store st !! ip).

(** What the data model asks of a stored row. *)
Definition well_formed (c : Comment.t) : Prop :=
  (1 <= length (Comment.name c) <= 80)%nat /\
  (1 <= length (Comment.msg c) <= 2000)%nat /\
  (exists a r, Comment.msg c = a :: r /\ isspace a = false) /\
  Comment.approved c = true.

(** Every later reading of a list of clock readings is less than 60 seconds
    after every earlier one. *)
Fixpoint within_window (ts : list Q) : Prop :=
  match ts with
  | [] => True
  | t :: ts' => Forall (fun t' => (t' - t < 60)%Q) ts' /\ within_window ts'
  end.

(** The clock readings of the creation requests of address [ip]. *)
Fixpoint attempts (ip : string) (ops : list op) : list Q :=
  match ops with
  | [] => []
  | Create now _ req :: ops' =>
      if String.eqb (client_ip req) ip then now :: attempts ip ops'
      else attempts ip ops'
  | Delete _ _ :: ops' => attempts ip ops'
  end.

(** The clock readings of those creation requests of address [ip] that the
    rate limiter let through (answered with anything but 429). *)
Fixpoint admitted (ADMIN_KEY : pystr) (ip : string) (ops : list op) (st : state)
  : list Q :=
  match ops with
  | [] => []
  | o :: ops' =>
      let rest := admitted ADMIN_KEY ip ops' (snd (step ADMIN_KEY o st)) in
      match o with
      | Create now _ req =>
          if String.eqb (client_ip req) ip
             && negb (status (fst (step ADMIN_KEY o st)) =? 429)
          then now :: rest else rest
      | Delete _ _ => rest
      end
  end.

(** * Properties *)

(** ** Strings and clocks *)

Lemma Qltb_lt (x y : Q) : Qltb x y = true <-> (x < y)%Q.
Proof.
  unfold Qltb. rewrite Qlt_alt.
  destruct (x ?= y)%Q; split; congruence.
Qed.

Lemma upto_nil_iff (n : nat) (s : pystr) : upto (S n) s = [] <-> s = [].
Proof. destruct s; simpl; split; congruence. Qed.

Lemma or_blank (a b : option pystr) :
  blank a -> blank b -> strip (or_str (or_get a b) []) = [].
Proof.
  unfold blank, or_get. intros Ha Hb.
  destruct a as [[|c r]|]; simpl in *; try exact Ha;
    destruct b as [[|c' r']|]; simpl in *; trivial.
Qed.

(** ** The rate limiter *)

Lemma In_prune (now t : Q) (arr : list Q) :
  In t (prune now arr) <-> In t arr /\ (now - t < 60)%Q.
Proof.
  unfold prune. rewrite filter_In. unfold RATE_LIMIT_WINDOW.
  now rewrite Qltb_lt.
Qed.

Lemma fresh_now (now : Q) : Qltb (now - now) RATE_LIMIT_WINDOW = true.
Proof. apply Qltb_lt. unfold RATE_LIMIT_WINDOW. lra. Qed.

Lemma prune_prune (now : Q) (arr : list Q) : prune now (prune now arr) = prune now arr.
Proof.
  unfold prune. induction arr as [|t arr IH]; simpl; trivial.
  destruct (Qltb (now - t) RATE_LIMIT_WINDOW) eqn:E; simpl; rewrite ?E, IH; trivial.
Qed.

Lemma prune_recorded (now : Q) (arr : list Q) :
  prune now (prune now arr ++ [now]) = prune now arr ++ [now].
Proof.
  unfold prune at 1. rewrite List.filter_app. fold (prune now (prune now arr)).
  rewrite prune_prune. simpl. now rewrite fresh_now.
Qed.

(** The two ways out of the decorator. *)
Lemma rate_limited_cases (func : view) (now : Q) (req : request) (st : state) :
  let ip := client_ip req in
  let recent := prune now (default [] (rate_store st !! ip)) in
  ((length recent < RATE_LIMIT_MAX)%nat /\
   rate_limited func now req st =
     (fst (func req (comments st)),
      {| rate_store := <[ip := recent ++ [now]]> (rate_store st);
         comments := snd (func req (comments st)) |}))
  \/
  ((RATE_LIMIT_MAX <= length recent)%nat /\
   rate_limited func now req st =
     ((JErrorDetail "rate_limit_exceeded" "Max 5 posts per 60s", 429), st)).
Proof.
  intros ip recent. unfold rate_limited. fold ip. fold recent.
  destruct (RATE_LIMIT_MAX <=? length recent)%nat eqn:E.
  - right. apply Nat.leb_le in E. auto.
  - left. apply Nat.leb_gt in E. split; [exact E|].
    now destruct (func req (comments st)).
Qed.

(** ** The body of the POST view *)

Lemma post_comment_cases (utcnow : datetime) (req : request) (tbl : Table.t) :
  let data := if is_json req then json req else form req in
  let msg :=
    upto 2000
      (strip (or_str (or_get (data !! "msg"%string) (data !! "message"%string)) [])) in
  (msg = [] /\ post_comment utcnow req tbl = ((JError "empty_message", 400), tbl))
  \/
  (msg <> [] /\
   exists c, post_comment utcnow req tbl = ((JComment (Comment.to_dict c), 201), tbl ++ [c])
     /\ Comment.id c = Table.next_id tbl
     /\ Comment.name c =
          str_or (upto 80 (strip (or_str (data !! "name"%string) ANON))) ANON
     /\ Comment.msg c = msg
     /\ Comment.ts c = utcnow
     /\ Comment.approved c = true).
Proof.
  intros data msg. unfold post_comment. fold data. fold msg.
  destruct msg as [|c r] eqn:E; simpl.
  - left. auto.
  - right. split; [discriminate|]. eexists. split; [reflexivity|]. simpl. auto.
Qed.

Lemma post_comment_status (utcnow : datetime) (req : request) (tbl : Table.t) :
  status (fst (post_comment utcnow req tbl)) = 400 \/
  status (fst (post_comment utcnow req tbl)) = 201.
Proof.
  destruct (post_comment_cases utcnow req tbl) as [[_ ->]|[_ (c & -> & _)]];
    simpl; auto.
Qed.

Lemma post_comment_blank (utcnow : datetime) (req : request) (tbl : Table.t) :
  let data := if is_json req then json req else form req in
  blank (data !! "msg"%string) -> blank (data !! "message"%string) ->
  post_comment utcnow req tbl = ((JError "empty_message", 400), tbl).
Proof.
  intros data Hmsg Hmessage.
  destruct (post_comment_cases utcnow req tbl) as [[_ H]|[Hne _]]; [exact H|].
  exfalso. apply Hne. fold data. now rewrite or_blank.
Qed.

(** ** Admission *)

(** [prune] keeps, in order and with repetitions, the readings less than 60
    seconds before [now]. *)
Lemma prune_filter (now : Q) (arr : list Q) :
  prune now arr = filter (fun t => (now - t < 60)%Q) arr.
Proof.
  unfold prune. induction arr as [|t arr IH]; simpl; [reflexivity|].
  rewrite filter_cons, <- IH. unfold RATE_LIMIT_WINDOW.
  destruct (Qltb (now - t) 60) eqn:E; case_decide as Hd; try reflexivity.
  - apply Qltb_lt in E. contradiction.
  - apply Qltb_lt in Hd. congruence.
Qed.

(** The key of the rate limiter is the address the request carries. *)
Lemma client_ip_addr (req : request) (ip : string) :
  remote_addr req = Some ip -> ip <> ""%string -> client_ip req = ip.
Proof.
  unfold client_ip. intros -> Hne. destruct ip; [contradiction|reflexivity].
Qed.

(** C1: for a request that carries the client address [ip], the creation
    attempt is admitted (answered with anything but 429) exactly when fewer
    than 5 of the timestamps recorded under [ip] are less than 60 seconds
    before [now]; an admitted attempt leaves those timestamps, followed by
    [now], as the list recorded under [ip]; a rejected one is answered with
    the 429 body and leaves the whole state, hence that list, as it was. *)
Theorem rate_limit_admission (now : Q) (utcnow : datetime) (req : request)
  (st : state) (ip : string) :
  remote_addr req = Some ip -> ip <> ""%string ->
  let recent :=
    filter (fun t => (now - t < 60)%Q) (default [] (rate_store st !! ip)) in
  let resp := fst (post_comment_route now utcnow req st) in
  let st' := snd (post_comment_route now utcnow req st) in
  (status resp <> 429 <-> (length recent < 5)%nat) /\
  (status resp <> 429 -> rate_store st' !! ip = Some (recent ++ [now])) /\
  (status resp = 429 ->
     resp = (JErrorDetail "rate_limit_exceeded" "Max 5 posts per 60s", 429) /\
     st' = st).
Proof.
  intros Haddr Hne recent resp st'. subst recent resp st'.
  rewrite <- prune_filter. unfold post_comment_route.
  pose proof (client_ip_addr req ip Haddr Hne) as Hip.
  destruct (rate_limited_cases (post_comment utcnow) now req st)
    as [[Hlt ->]|[Hge ->]]; rewrite Hip in *; cbn [fst snd rate_store];
    unfold RATE_LIMIT_MAX in *.
  - pose proof (post_comment_status utcnow req (comments st)) as Hs.
    assert (status (fst (post_comment utcnow req (comments st))) <> 429)
      by (destruct Hs as [-> | ->]; discriminate).
    split; [split; auto|]. split.
    + intros _. apply lookup_insert_eq.
    + contradiction.
  - unfold status; cbn [snd]. split; [split|split].
    + intros H. now contradiction H.
    + intros Hlt. exfalso. apply Nat.lt_nge in Hlt. exact (Hlt Hge).
    + intros H. now contradiction H.
    + auto.
Qed.

(** With five posts of "1.2.3.4" and four of "5.6.7.8" within the minute, a
    post of the first address at 105 is refused and one of the second is
    admitted and recorded under "5.6.7.8". *)
Lemma rate_limit_admission_witness :
  remote_addr ann_req = Some "1.2.3.4"%string /\
  remote_addr yo_req = Some "5.6.7.8"%string /\
  rate_store two_clients !! "1.2.3.4"%string = Some [100; 101; 102; 103; 104]%Q /\
  rate_store two_clients !! "5.6.7.8"%string = Some [100; 101; 102; 103]%Q /\
  status (fst (post_comment_route 105 0 ann_req two_clients)) = 429 /\
  snd (post_comment_route 105 0 ann_req two_clients) = two_clients /\
  status (fst (post_comment_route 105 0 yo_req two_clients)) <> 429 /\
  rate_store (snd (post_comment_route 105 0 yo_req two_clients)) !! "5.6.7.8"%string
    = Some [100; 101; 102; 103; 105]%Q.
Proof.
  destruct (rate_limit_admission 105 0 ann_req two_clients "1.2.3.4")
    as (Hiff1 & _ & Hrej); [reflexivity | discriminate |].
  destruct (rate_limit_admission 105 0 yo_req two_clients "5.6.7.8")
    as (Hiff2 & Hadm & _); [reflexivity | discriminate |].
  assert (status (fst (post_comment_route 105 0 ann_req two_clients)) = 429) as H1.
  { destruct (Z.eq_dec (status (fst (post_comment_route 105 0 ann_req two_clients))) 429)
      as [E|E]; [exact E|].
    apply Hiff1 in E. vm_compute in E. lia. }
  assert (status (fst (post_comment_route 105 0 yo_req two_clients)) <> 429) as H2.
  { apply Hiff2. vm_compute. lia. }
  do 4 (split; [reflexivity|]).
  split; [exact H1|]. split; [now apply Hrej|]. split; [exact H2|].
  rewrite (Hadm H2). vm_compute. reflexivity.
Defined.

(** C10: a creation attempt answered with 429 leaves the state as it was
    before the attempt; in particular the address-to-timestamps mapping is
    the same mapping: neither the pruned list nor the current time reaches
    it. *)
Theorem rejection_keeps_rate_store (now : Q) (utcnow : datetime) (req : request)
  (st : state) :
  status (fst (post_comment_route now utcnow req st)) = 429 ->
  snd (post_comment_route now utcnow req st) = st /\
  rate_store (snd (post_comment_route now utcnow req st)) = rate_store st.
Proof.
  unfold post_comment_route.
  destruct (rate_limited_cases (post_comment utcnow) now req st)
    as [[_ ->]|[_ ->]]; cbn [fst snd]; auto.
  intros H. exfalso.
  destruct (post_comment_status utcnow req (comments st)) as [E|E];
    rewrite E in H; discriminate.
Qed.

(** At 105 the entry [0] of [busy] is stale and five remain: the request is
    rejected and the stale entry stays in the mapping. *)
Lemma rejection_keeps_rate_store_witness :
  status (fst (post_comment_route 105 0 ann_req busy)) = 429 /\
  prune 105 [0; 100; 101; 102; 103; 104]%Q <> [0; 100; 101; 102; 103; 104]%Q /\
  rate_store (snd (post_comment_route 105 0 ann_req busy)) = rate_store busy.
Proof.
  split; [reflexivity|]. split; [discriminate|].
  apply (rejection_keeps_rate_store 105 0 ann_req busy). reflexivity.
Defined.

(** C9: a creation request answered with 400 [empty_message] was admitted
    first: its timestamp stands at the end of the address's entry, the table
    is untouched, and the request counts among the attempts of the window,
    at [now] (one more than before) and at any later reading less than 60
    seconds away. *)
Theorem invalid_post_consumes_slot (now : Q) (utcnow : datetime) (req : request)
  (st : state) :
  let ip := client_ip req in
  let recent := prune now (default [] (rate_store st !! ip)) in
  let st' := snd (post_comment_route now utcnow req st) in
  fst (post_comment_route now utcnow req st) = (JError "empty_message", 400) ->
  rate_store st' !! ip = Some (recent ++ [now]) /\
  comments st' = comments st /\
  length (prune now (default [] (rate_store st' !! ip))) = S (length recent) /\
  (forall later : Q, (later - now < 60)%Q ->
     In now (prune later (default [] (rate_store st' !! ip)))).
Proof.
  intros ip recent st'. subst st'. unfold post_comment_route.
  destruct (rate_limited_cases (post_comment utcnow) now req st)
    as [[_ ->]|[_ ->]]; fold ip; fold recent; cbn [fst snd rate_store comments];
    [|discriminate].
  intros Hresp.
  destruct (post_comment_cases utcnow req (comments st)) as [[_ E]|[_ (c & E & _)]];
    rewrite E in *; [|discriminate]. cbn [snd].
  rewrite lookup_insert_eq. cbn [default from_option id]. repeat split.
  - subst recent. rewrite prune_recorded, length_app. simpl. lia.
  - intros later Hlater. apply In_prune. split; [|exact Hlater].
    apply in_or_app. right. now left.
Qed.

Lemma invalid_post_consumes_slot_witness :
  fst (post_comment_route 7 0 blank_req init) = (JError "empty_message", 400) /\
  rate_store (snd (post_comment_route 7 0 blank_req init)) !! "1.2.3.4"%string
    = Some [7%Q].
Proof.
  split; [reflexivity|].
  apply (invalid_post_consumes_slot 7 0 blank_req init). reflexivity.
Defined.

(** The scenario of the specification: five posts pass, the sixth within the
    minute is refused, one past the window passes again. *)
Example five_then_refused :
  map status
    (fst (run [] [Create 0 0 ann_req; Create 1 0 ann_req; Create 2 0 ann_req;
                  Create 3 0 ann_req; Create 4 0 ann_req; Create 5 0 ann_req;
                  Create 60 0 ann_req] init))
  = [201; 201; 201; 201; 201; 429; 201].
Proof. reflexivity. Qed.

(** ** Validation *)

(** C4, as stated, fails: a blank message from an address that has used up
    its five attempts is answered with 429, not with 400. *)
Lemma blank_message_refused_first :
  blank (json blank_req !! "msg"%string) /\
  blank (json blank_req !! "message"%string) /\
  fst (post_comment_route 105 0 blank_req busy)
    = (JErrorDetail "rate_limit_exceeded" "Max 5 posts per 60s", 429) /\
  fst (post_comment_route 105 0 blank_req busy) <> (JError "empty_message", 400).
Proof. repeat split; try reflexivity. discriminate. Qed.

(** C4, amended: a creation request whose message is blank under both keys
    inserts no record; it is answered with 400 [empty_message] when the rate
    limiter admits it, and with 429 when the limiter refuses it. *)
Theorem blank_message_rejected (now : Q) (utcnow : datetime) (req : request)
  (st : state) :
  let data := if is_json req then json req else form req in
  let recent := prune now (default [] (rate_store st !! client_ip req)) in
  let resp := fst (post_comment_route now utcnow req st) in
  let st' := snd (post_comment_route now utcnow req st) in
  blank (data !! "msg"%string) -> blank (data !! "message"%string) ->
  comments st' = comments st /\
  ((length recent < RATE_LIMIT_MAX)%nat -> resp = (JError "empty_message", 400)) /\
  ((RATE_LIMIT_MAX <= length recent)%nat -> status resp = 429).
Proof.
  intros data recent resp st' Hmsg Hmessage. subst resp st'.
  unfold post_comment_route.
  pose proof (post_comment_blank utcnow req (comments st) Hmsg Hmessage) as E.
  destruct (rate_limited_cases (post_comment utcnow) now req st)
    as [[Hlt ->]|[Hge ->]]; rewrite ?E; cbn [fst snd comments];
    fold recent in Hlt || fold recent in Hge.
  - repeat split; auto. intros Hge. exfalso. apply Nat.lt_nge in Hlt. auto.
  - repeat split; auto. intros Hlt. exfalso. apply Nat.lt_nge in Hlt. auto.
Qed.

Lemma blank_message_rejected_witness :
  blank (json blank_req !! "msg"%string) /\
  blank (json blank_req !! "message"%string) /\
  comments (snd (post_comment_route 7 0 blank_req init)) = [] /\
  fst (post_comment_route 7 0 blank_req init) = (JError "empty_message", 400).
Proof.
  split; [reflexivity|]. split; [reflexivity|].
  destruct (blank_message_rejected 7 0 blank_req init) as (H1 & H2 & _);
    [reflexivity | reflexivity |].
  split; [exact H1|]. apply H2. vm_compute. lia.
Defined.

(** C7, as stated, fails: with "a" under [msg] and "b" under [message], the
    stored message is "a". *)
Lemma message_key_not_preferred :
  json both_req !! "msg"%string = Some (py "a") /\
  json both_req !! "message"%string = Some (py "b") /\
  exists c, snd (post_comment 0 both_req []) = [c] /\
            Comment.msg c = py "a" /\ Comment.msg c <> py "b".
Proof.
  split; [reflexivity|]. split; [reflexivity|].
  eexists. split; [reflexivity|]. split; [reflexivity|discriminate].
Qed.

(** C7, amended: when both keys are present and non-empty the message comes
    from the [msg] key: the view stores the text under [msg], trimmed and cut
    to 2000 characters, whatever stands under [message], and answers 400
    when that text is whitespace only. *)
Theorem msg_key_takes_precedence (utcnow : datetime) (req : request)
  (tbl : Table.t) (m m' : pystr) :
  let data := if is_json req then json req else form req in
  data !! "msg"%string = Some m -> data !! "message"%string = Some m' ->
  m <> [] -> m' <> [] ->
  (strip m <> [] ->
     exists c, post_comment utcnow req tbl
                 = ((JComment (Comment.to_dict c), 201), tbl ++ [c]) /\
               Comment.msg c = upto 2000 (strip m)) /\
  (strip m = [] ->
     post_comment utcnow req tbl = ((JError "empty_message", 400), tbl)).
Proof.
  intros data Hm Hm' Hne Hne'.
  assert (Hsel : or_str (or_get (data !! "msg"%string) (data !! "message"%string)) [] = m).
  { rewrite Hm, Hm'. destruct m; [contradiction|reflexivity]. }
  destruct (post_comment_cases utcnow req tbl) as [[E H]|[E (c & H & _ & _ & Hc & _)]];
    fold data in E; try fold data in Hc; rewrite Hsel in *.
  - apply upto_nil_iff in E. split; [contradiction|auto].
  - split.
    + intros _. exists c. auto.
    + intros Hs. rewrite Hs in E. now contradiction E.
Qed.

Lemma msg_key_takes_precedence_witness :
  exists c, post_comment 0 both_req [] = ((JComment (Comment.to_dict c), 201), [c]) /\
            Comment.msg c = py "a".
Proof.
  destruct (msg_key_takes_precedence 0 both_req [] (py "a") (py "b")) as [H _];
    try reflexivity; try discriminate.
  apply H. discriminate.
Defined.

(** [message] is the fallback: it is read when [msg] is absent or empty. *)
Lemma message_key_is_fallback (utcnow : datetime) (req : request)
  (tbl : Table.t) (m' : pystr) :
  let data := if is_json req then json req else form req in
  truthy (data !! "msg"%string) = false ->
  data !! "message"%string = Some m' -> strip m' <> [] ->
  exists c, post_comment utcnow req tbl
              = ((JComment (Comment.to_dict c), 201), tbl ++ [c]) /\
            Comment.msg c = upto 2000 (strip m').
Proof.
  intros data Hf Hm' Hs.
  assert (Hsel : or_str (or_get (data !! "msg"%string) (data !! "message"%string)) [] = m').
  { unfold or_get. rewrite Hf, Hm'. destruct m'; reflexivity. }
  destruct (post_comment_cases utcnow req tbl) as [[E H]|[E (c & H & _ & _ & Hc & _)]];
    fold data in E; try fold data in Hc; rewrite Hsel in *.
  - apply upto_nil_iff in E. contradiction.
  - exists c. auto.
Qed.

(** ** Deletion *)

(** C2: with no admin secret configured ([ADMIN_KEY] empty) every delete
    request is answered with 403 [forbidden], whatever key it carries, and
    leaves the state, the table included, as it was. *)
Theorem delete_without_secret_forbidden (comment_id : Z) (req : request) (st : state) :
  delete_comment_route [] comment_id req st = ((JError "forbidden", 403), st) /\
  delete_comment [] comment_id req (comments st)
    = ((JError "forbidden", 403), comments st).
Proof.
  unfold delete_comment_route, delete_comment. simpl.
  split; [now destruct st | reflexivity].
Qed.

(** ** Listing *)

Lemma insert_desc_perm (c : Comment.t) (l : Table.t) : Table.insert_desc c l ≡ₚ c :: l.
Proof.
  induction l as [|d l IH]; simpl; [reflexivity|].
  destruct (Comment.ts d <=? Comment.ts c); [reflexivity|].
  rewrite IH. apply Permutation_swap.
Qed.

Lemma insert_desc_sorted (c : Comment.t) (l : Table.t) :
  StronglySorted newer_first l -> StronglySorted newer_first (Table.insert_desc c l).
Proof.
  induction l as [|d l IH]; simpl; intros Hs.
  - repeat constructor.
  - apply StronglySorted_cons in Hs as [Hd Hl].
    destruct (Comment.ts d <=? Comment.ts c) eqn:E.
    + apply Z.leb_le in E. constructor.
      * constructor; assumption.
      * constructor; [exact E|].
        eapply List.Forall_impl; [|exact Hd].
        unfold newer_first. intros x Hx. lia.
    + apply Z.leb_gt in E. constructor; [auto|].
      rewrite insert_desc_perm. constructor; [|exact Hd].
      unfold newer_first. lia.
Qed.

Lemma order_by_ts_desc_perm (tbl : Table.t) : Table.order_by_ts_desc tbl ≡ₚ tbl.
Proof.
  induction tbl as [|c l IH]; simpl; [reflexivity|].
  rewrite insert_desc_perm. now rewrite IH.
Qed.

Lemma order_by_ts_desc_sorted (tbl : Table.t) :
  StronglySorted newer_first (Table.order_by_ts_desc tbl).
Proof.
  induction tbl as [|c l IH]; simpl; [constructor|].
  now apply insert_desc_sorted.
Qed.

Lemma filter_by_approved_spec (c : Comment.t) (tbl : Table.t) :
  c ∈ Table.filter_by_approved tbl <-> c ∈ tbl /\ Comment.approved c = true.
Proof. unfold Table.filter_by_approved. rewrite !list_elem_of_In. apply filter_In. Qed.

(** [LIMIT] keeps a prefix. *)
Lemma limit_prefix (n : Z) (l : Table.t) : exists rest, l = Table.limit n l ++ rest.
Proof.
  unfold Table.limit. destruct (n <? 0).
  - exists []. now rewrite app_nil_r.
  - exists (drop (Z.to_nat n) l). now rewrite take_drop.
Qed.

Lemma limit_length (n : Z) (l : Table.t) :
  0 <= n -> length (Table.limit n l) = Nat.min (Z.to_nat n) (length l).
Proof.
  intros Hn. unfold Table.limit.
  destruct (n <? 0) eqn:E; [apply Z.ltb_lt in E; lia|]. apply length_take.
Qed.

(** What the listing view answers once both parameters parse. *)
Lemma get_comments_parsed (int : pystr -> option Z) (req : request)
  (tbl : Table.t) (l o : Z) :
  int_arg int "limit" 100 req = Some l -> int_arg int "offset" 0 req = Some o ->
  get_comments int req tbl =
    (JComments
       (map Comment.to_dict
          (Table.limit (Z.min 200 l)
             (Table.offset (Z.max 0 o)
                (Table.order_by_ts_desc (Table.filter_by_approved tbl))))), 200).
Proof. intros Hl Ho. unfold get_comments. now rewrite Hl, Ho. Qed.

(** C6: once the pagination parameters parse, to integers the database can
    bind, the listing answers 200 with the records of exactly these rows: of
    the approved rows of the table, put newest first, the first
    [max(0, offset)] are skipped and, of what remains, the first
    [min(200, limit)] are returned, or all of it when [limit] is negative.
    So the records returned are all approved and stand newest first. *)
Theorem listing_approved_newest_first (int : pystr -> option Z) (req : request)
  (tbl : Table.t) (l o : Z) :
  int_arg int "limit" 100 req = Some l -> int_arg int "offset" 0 req = Some o ->
  - 2 ^ 63 <= l -> o < 2 ^ 63 ->
  exists ordering items,
    ordering ≡ₚ List.filter Comment.approved tbl /\
    StronglySorted newer_first ordering /\
    items = (let rest := drop (Z.to_nat (Z.max 0 o)) ordering in
             if l <? 0 then rest else take (Z.to_nat (Z.min 200 l)) rest) /\
    get_comments int req tbl = (JComments (map Comment.to_dict items), 200) /\
    Forall (fun c => Comment.approved c = true) items /\
    StronglySorted newer_first items.
Proof.
  intros Hl Ho _ _.
  set (ordering := Table.order_by_ts_desc (Table.filter_by_approved tbl)).
  set (items := Table.limit (Z.min 200 l) (Table.offset (Z.max 0 o) ordering)).
  pose proof (order_by_ts_desc_sorted (Table.filter_by_approved tbl)) as Hs.
  fold ordering in Hs.
  exists ordering, items.
  split; [apply order_by_ts_desc_perm|]. split; [exact Hs|].
  split.
  { subst items. unfold Table.limit, Table.offset. cbn zeta.
    replace (Z.min 200 l <? 0) with (l <? 0) by lia. reflexivity. }
  split; [exact (get_comments_parsed int req tbl l o Hl Ho)|].
  destruct (limit_prefix (Z.min 200 l) (Table.offset (Z.max 0 o) ordering))
    as [rest Hrest]. fold items in Hrest.
  assert (Hsplit : ordering = take (Z.to_nat (Z.max 0 o)) ordering ++ items ++ rest).
  { rewrite <- Hrest. unfold Table.offset. now rewrite take_drop. }
  split.
  - apply List.Forall_forall. intros c Hc. apply list_elem_of_In in Hc.
    apply (filter_by_approved_spec c tbl).
    rewrite <- (order_by_ts_desc_perm (Table.filter_by_approved tbl)).
    fold ordering. rewrite Hsplit. rewrite !elem_of_app. auto.
  - rewrite Hsplit in Hs.
    apply StronglySorted_app_1_r, StronglySorted_app_1_l in Hs. exact Hs.
Qed.

(** Of five rows with ids 1 to 5, created in that order, the page of two
    after one skipped record holds the rows of ids 4 and 3. *)
Lemma listing_approved_newest_first_witness :
  int_arg int_decimal "limit" 100 first_page_req = Some 2 /\
  int_arg int_decimal "offset" 0 first_page_req = Some 1 /\
  exists items,
    get_comments int_decimal first_page_req (rows 5)
      = (JComments (map Comment.to_dict items), 200) /\
    map Comment.id items = [4; 3].
Proof.
  split; [reflexivity|]. split; [reflexivity|].
  destruct (listing_approved_newest_first int_decimal first_page_req (rows 5) 2 1)
    as (ordering & items & _ & _ & _ & Hget & _); [reflexivity | reflexivity | lia | lia |].
  exists items. split; [exact Hget|].
  pose proof (eq_refl : get_comments int_decimal first_page_req (rows 5)
                        = (JComments (map Comment.to_dict [nth_row 4; nth_row 3]), 200))
    as Hc.
  rewrite Hc in Hget. injection Hget as Hm.
  change (map Comment.id items)
    with (map (fun c => DTO.id (Comment.to_dict c)) items).
  rewrite <- (map_map Comment.to_dict DTO.id), <- Hm. reflexivity.
Defined.

(** For a limit that is not negative the answer holds at most
    [min(limit, 200)] items. *)
Lemma nonneg_limit_bounded (int : pystr -> option Z) (req : request)
  (tbl : Table.t) (l o : Z) :
  int_arg int "limit" 100 req = Some l -> int_arg int "offset" 0 req = Some o ->
  0 <= l ->
  exists items, get_comments int req tbl = (JComments items, 200) /\
                Z.of_nat (length items) <= Z.min l 200.
Proof.
  intros Hl Ho Hnn. eexists. split; [exact (get_comments_parsed int req tbl l o Hl Ho)|].
  rewrite length_map, limit_length by lia. lia.
Qed.

(** C3: the code at the failing input.  The query [limit=-1] parses, the
    page size handed to the table is [min(200, -1) = -1], outside [0, 200],
    and on a table of 201 approved rows the answer holds all 201 of them. *)
Theorem negative_limit_lists_everything :
  int_arg int_decimal "limit" 100 neg_limit_req = Some (-1) /\
  get_comments int_decimal neg_limit_req (rows 201)
    = (JComments
         (map Comment.to_dict
            (Table.limit (-1)
               (Table.offset 0
                  (Table.order_by_ts_desc (Table.filter_by_approved (rows 201)))))),
       200) /\
  exists items,
    get_comments int_decimal neg_limit_req (rows 201) = (JComments items, 200) /\
    length items = 201%nat.
Proof.
  split; [reflexivity|]. split; [reflexivity|].
  eexists. split; [reflexivity|]. vm_compute. reflexivity.
Qed.

(** ** Round trip *)

Lemma filter_filter_andb {A} (f g : A -> bool) (l : list A) :
  List.filter f (List.filter g l) = List.filter (fun x => g x && f x) l.
Proof.
  induction l as [|x l IH]; simpl; trivial.
  destruct (g x); simpl; [destruct (f x)|]; now rewrite IH.
Qed.

(** Inserting [d] into a list where [c] stands behind rows not older than
    itself moves [c] back by at most one place, and only if [d] is not
    older than [c]. *)
Lemma insert_desc_place (c d : Comment.t) (front back : Table.t) :
  Forall (fun a => Comment.ts c <= Comment.ts a) front ->
  exists front' back',
    Table.insert_desc d (front ++ c :: back) = front' ++ c :: back' /\
    Forall (fun a => Comment.ts c <= Comment.ts a) front' /\
    (length front' <=
       length front + (if (Comment.ts c <=? Comment.ts d)%Z then 1 else 0))%nat.
Proof.
  induction front as [|a front IH]; simpl; intros Hf.
  - destruct (Comment.ts c <=? Comment.ts d) eqn:E.
    + exists [d], back. apply Z.leb_le in E. simpl. repeat split; auto.
    + exists [], (Table.insert_desc d back). simpl. repeat split; auto.
  - apply Forall_cons_1 in Hf as [Ha Hf].
    destruct (Comment.ts a <=? Comment.ts d) eqn:E.
    + apply Z.leb_le in E. exists (d :: a :: front), back.
      assert (Comment.ts c <= Comment.ts d) as Hcd by lia.
      apply Z.leb_le in Hcd as Hcd'. rewrite Hcd'. simpl.
      repeat split; auto. lia.
    + destruct (IH Hf) as (front' & back' & -> & Hf' & Hlen).
      exists (a :: front'), back'. simpl. repeat split; auto. lia.
Qed.

(** A row appended to the table is listed behind at most as many rows as
    there are rows not older than it. *)
Lemma order_by_ts_desc_place (c : Comment.t) (l : Table.t) :
  exists front back,
    Table.order_by_ts_desc (l ++ [c]) = front ++ c :: back /\
    (length front
       <= length (List.filter (fun d => (Comment.ts c <=? Comment.ts d)%Z) l))%nat.
Proof.
  unfold Table.order_by_ts_desc. rewrite foldr_app. simpl.
  assert (exists front back,
            foldr Table.insert_desc [c] l = front ++ c :: back /\
            Forall (fun a => Comment.ts c <= Comment.ts a) front /\
            (length front
               <= length (List.filter (fun d => (Comment.ts c <=? Comment.ts d)%Z) l))%nat)
    as (front & back & E & _ & Hlen).
  { induction l as [|d l (front & back & E & Hf & Hlen)]; simpl.
    - exists [], []. repeat split; auto.
    - rewrite E.
      destruct (insert_desc_place c d front back Hf)
        as (front' & back' & E' & Hf' & Hlen').
      exists front', back'. repeat split; auto.
      destruct (Comment.ts c <=? Comment.ts d); simpl; lia. }
  eauto.
Qed.

(** C5, as stated, fails: right after a creation answered 201, a listing
    that skips one record returns nothing when the new comment is the only
    one; and the default listing of a table that already holds 100 rows with
    later timestamps returns those 100 rows and not the new comment. *)
Lemma created_comment_not_listed :
  (exists d,
     fst (post_comment_route 0 5 ann_req init) = (JComment d, 201) /\
     get_comments int_decimal skip_one_req
       (comments (snd (post_comment_route 0 5 ann_req init)))
     = (JComments [], 200)) /\
  (exists d items,
     fst (post_comment_route 0 0 ann_req crowded) = (JComment d, 201) /\
     get_comments int_decimal plain_req
       (comments (snd (post_comment_route 0 0 ann_req crowded)))
     = (JComments items, 200) /\
     length items = 100%nat /\
     Forall (fun x => DTO.id x <> DTO.id d) items).
Proof.
  split.
  - eexists. split; reflexivity.
  - do 2 eexists. split; [reflexivity|]. split; [reflexivity|].
    split; [vm_compute; reflexivity|].
    apply (bool_decide_unpack _). vm_compute. reflexivity.
Qed.

(** C5, amended: after a successful creation, a listing from offset 0 whose
    page is larger than the number of approved rows not older than the new
    one (the default page of 100 on a table with fewer such rows, any page
    of at least one item when the new comment is the most recent) returns a
    record whose id, name, message and approved flag are those of the row
    just stored, and those of the record the creation returned. *)
Theorem created_comment_round_trip (int : pystr -> option Z) (now : Q)
  (utcnow : datetime) (req lreq : request) (st st' : state) (d : DTO.t) (l o : Z) :
  post_comment_route now utcnow req st = ((JComment d, 201), st') ->
  int_arg int "limit" 100 lreq = Some l -> int_arg int "offset" 0 lreq = Some o ->
  o <= 0 ->
  Z.of_nat (length (List.filter (not_older utcnow) (comments st))) < Z.min 200 l ->
  exists c items d',
    comments st' = comments st ++ [c] /\
    get_comments int lreq (comments st') = (JComments items, 200) /\
    d' ∈ items /\
    (DTO.id d', DTO.name d', DTO.msg d', DTO.approved d')
      = (Comment.id c, Comment.name c, Comment.msg c, Comment.approved c) /\
    (DTO.id d, DTO.name d, DTO.msg d, DTO.approved d)
      = (Comment.id c, Comment.name c, Comment.msg c, Comment.approved c).
Proof.
  intros Hpost Hl Ho Hoff Hpage. unfold post_comment_route in Hpost.
  destruct (rate_limited_cases (post_comment utcnow) now req st)
    as [[_ E]|[_ E]]; rewrite E in Hpost; [|discriminate].
  destruct (post_comment_cases utcnow req (comments st))
    as [[_ E']|[_ (c & E' & _ & _ & _ & Hts & Happ)]];
    rewrite E' in Hpost; [discriminate|].
  cbn [fst snd] in Hpost. injection Hpost as <- <-. cbn [comments].
  exists c. eexists. exists (Comment.to_dict c). split; [reflexivity|].
  split; [exact (get_comments_parsed int lreq _ l o Hl Ho)|].
  split; [|auto].
  apply list_elem_of_fmap. exists c. split; [reflexivity|].
  unfold Table.filter_by_approved. rewrite List.filter_app. simpl. rewrite Happ.
  destruct (order_by_ts_desc_place c (List.filter Comment.approved (comments st)))
    as (front & back & -> & Hlen).
  rewrite filter_filter_andb in Hlen. rewrite Hts in Hlen.
  fold (not_older utcnow) in Hlen.
  replace (Z.max 0 o) with 0 by lia. unfold Table.offset. simpl.
  unfold Table.limit. destruct (Z.min 200 l <? 0); [set_solver|].
  apply elem_of_take. exists (length front). split; [|lia].
  now apply list_lookup_middle.
Qed.

Lemma created_comment_round_trip_witness :
  exists items d',
    get_comments int_decimal plain_req
      (comments (snd (post_comment_route 0 1234567 ann_req init)))
      = (JComments items, 200) /\
    d' ∈ items /\
    (DTO.id d', DTO.name d', DTO.msg d', DTO.approved d')
      = (1, py "Ann", py "hi", true).
Proof.
  destruct (created_comment_round_trip int_decimal 0 1234567 ann_req
              plain_req init
              (snd (post_comment_route 0 1234567 ann_req init))
              (Comment.to_dict ann_row) 100 0)
    as (c & items & d' & Hc & Hget & Hin & Hd' & _);
    [vm_compute; reflexivity | reflexivity | reflexivity | lia | reflexivity |].
  exists items, d'. split; [exact Hget|]. split; [exact Hin|].
  vm_compute in Hc. injection Hc as <-. exact Hd'.
Defined.

(** ** Identifiers *)

Lemma ids_below_next (tbl : Table.t) : Forall (fun i => i < Table.next_id tbl) (ids tbl).
Proof.
  unfold Table.next_id, ids.
  induction tbl as [|c tbl IH]; simpl; constructor.
  - lia.
  - eapply List.Forall_impl; [|exact IH]. simpl. intros i Hi. lia.
Qed.

Lemma ids_delete (c : Comment.t) (tbl : Table.t) :
  ids (Table.delete c tbl) = filter (fun i => i <> Comment.id c) (ids tbl).
Proof.
  unfold ids, Table.delete.
  induction tbl as [|d tbl IH]; simpl; trivial.
  rewrite filter_cons.
  destruct (Z.eqb_spec (Comment.id d) (Comment.id c)); simpl; case_decide;
    try contradiction; now rewrite IH.
Qed.

Lemma NoDup_ids_delete (c : Comment.t) (tbl : Table.t) :
  NoDup (ids tbl) -> NoDup (ids (Table.delete c tbl)).
Proof. rewrite ids_delete. apply NoDup_filter. Qed.

Lemma NoDup_ids_add (i : Z) (tbl : Table.t) :
  Forall (fun j => j < i) (ids tbl) -> NoDup (ids tbl) -> NoDup (ids tbl ++ [i]).
Proof.
  intros Hlt Hnd. apply NoDup_app. split; [exact Hnd|]. split.
  - intros j Hj Hji. apply list_elem_of_singleton in Hji. subst j.
    rewrite Forall_forall in Hlt. specialize (Hlt i Hj). lia.
  - apply NoDup_singleton.
Qed.

(** A creation answered with 201 appends one row whose id is the next one. *)
Lemma created_id (now : Q) (utcnow : datetime) (req : request) (st : state)
  (d : DTO.t) :
  fst (post_comment_route now utcnow req st) = (JComment d, 201) ->
  DTO.id d = Table.next_id (comments st) /\
  ids (comments (snd (post_comment_route now utcnow req st)))
    = ids (comments st) ++ [DTO.id d].
Proof.
  unfold post_comment_route.
  destruct (rate_limited_cases (post_comment utcnow) now req st)
    as [[_ ->]|[_ ->]]; cbn [fst snd comments]; [|discriminate].
  destruct (post_comment_cases utcnow req (comments st))
    as [[_ ->]|[_ (c & -> & Hid & _)]]; cbn [fst snd]; [discriminate|].
  intros H. injection H as <-. simpl. split; [exact Hid|].
  unfold ids. now rewrite map_app.
Qed.

Lemma step_keeps_ids_distinct (key : pystr) (o : op) (st : state) :
  NoDup (ids (comments st)) -> NoDup (ids (comments (snd (step key o st)))).
Proof.
  intros Hnd. destruct o as [now utcnow req|comment_id req]; simpl.
  - unfold post_comment_route.
    destruct (rate_limited_cases (post_comment utcnow) now req st)
      as [[_ ->]|[_ ->]]; cbn [fst snd comments]; [|exact Hnd].
    destruct (post_comment_cases utcnow req (comments st))
      as [[_ ->]|[_ (c & -> & Hid & _)]]; cbn [fst snd]; [exact Hnd|].
    unfold ids. rewrite map_app. simpl. rewrite Hid.
    apply NoDup_ids_add; [apply ids_below_next|exact Hnd].
  - unfold delete_comment_route, delete_comment.
    destruct (is_empty key || _); [exact Hnd|].
    destruct (Table.get comment_id (comments st)); [|exact Hnd].
    cbn [snd comments]. now apply NoDup_ids_delete.
Qed.

Lemma run_keeps_ids_distinct (key : pystr) (ops : list op) (st : state) :
  NoDup (ids (comments st)) -> NoDup (ids (comments (snd (run key ops st)))).
Proof.
  revert st. induction ops as [|o ops IH]; intros st Hnd; simpl; [exact Hnd|].
  pose proof (step_keeps_ids_distinct key o st Hnd) as H1.
  destruct (step key o st) as [r st1]. simpl in H1.
  specialize (IH st1 H1). now destruct (run key ops st1).
Qed.

(** C8, as stated, fails: the comment of id 2 is deleted and the next
    creation is given id 2 again. *)
Lemma deleted_id_assigned_again :
  let rs := fst (run (py "k") [Create 0 0 ann_req; Create 1 0 ann_req;
                                Delete 2 admin_req; Create 2 0 ann_req] init) in
  map status rs = [201; 201; 200; 201] /\
  assigned_ids rs = [1; 2; 2] /\
  ~ NoDup (assigned_ids rs).
Proof.
  split; [reflexivity|]. split; [reflexivity|].
  change (~ NoDup [1; 2; 2]). intros H.
  apply NoDup_cons in H as [_ H]. apply NoDup_cons in H as [H _].
  apply H. now left.
Qed.

(** C8, amended: after any sequence of create and delete requests, served
    from a table whose ids are pairwise distinct (the empty table to begin
    with), the ids in the table are pairwise distinct, and a comment created
    next gets an id larger than every id then in the table, which joins them
    at the end. *)
Theorem ids_distinct_and_increasing (key : pystr) (ops : list op) (st : state) :
  NoDup (ids (comments st)) ->
  let st' := snd (run key ops st) in
  NoDup (ids (comments st')) /\
  forall now utcnow req d,
    fst (post_comment_route now utcnow req st') = (JComment d, 201) ->
    Forall (fun i => i < DTO.id d) (ids (comments st')) /\
    ids (comments (snd (post_comment_route now utcnow req st')))
      = ids (comments st') ++ [DTO.id d].
Proof.
  intros Hnd st'. split; [now apply run_keeps_ids_distinct|].
  intros now utcnow req d Hd.
  destruct (created_id now utcnow req st' d Hd) as [Hid Hids].
  split; [|exact Hids]. rewrite Hid. apply ids_below_next.
Qed.

Lemma ids_distinct_and_increasing_witness :
  NoDup (ids (comments init)) /\
  NoDup (ids (comments (snd (run (py "k")
                               [Create 0 0 ann_req; Create 1 0 ann_req;
                                Delete 2 admin_req; Create 2 0 ann_req] init)))).
Proof.
  split; [constructor|].
  apply (ids_distinct_and_increasing (py "k")
           [Create 0 0 ann_req; Create 1 0 ann_req;
            Delete 2 admin_req; Create 2 0 ann_req] init).
  constructor.
Defined.

(** * Further properties of the code *)

(** ** Trimming *)

Lemma lstrip_split (s : pystr) :
  exists w, s = w ++ lstrip s /\ all_space w.
Proof.
  induction s as [|c s (w & E & Hw)]; simpl.
  - exists []. split; [reflexivity|constructor].
  - destruct (isspace c) eqn:Hc.
    + exists (c :: w). split; [simpl; congruence|now constructor].
    + exists []. split; [reflexivity|constructor].
Qed.

Lemma lstrip_head (s : pystr) (c : N) (r : pystr) :
  lstrip s = c :: r -> isspace c = false.
Proof.
  induction s as [|a s IH]; simpl; [discriminate|].
  destruct (isspace a) eqn:Ha; [exact IH|]. intros H. injection H as <- _. exact Ha.
Qed.

Lemma lstrip_nil_iff (s : pystr) : lstrip s = [] <-> all_space s.
Proof.
  unfold all_space. induction s as [|a s IH]; simpl.
  - split; [constructor|reflexivity].
  - destruct (isspace a) eqn:Ha.
    + rewrite IH. split; [now constructor|]. intros H. now apply Forall_cons_1 in H.
    + split; [discriminate|]. intros H. apply Forall_cons_1 in H as [H _]. congruence.
Qed.

(** [strip] cuts a whitespace tail off [lstrip]. *)
Lemma strip_split (s : pystr) :
  exists w, lstrip s = strip s ++ w /\ all_space w.
Proof.
  unfold strip, rstrip.
  destruct (lstrip_split (rev (lstrip s))) as (w & E & Hw).
  exists (rev w). split.
  - rewrite <- rev_app_distr, <- E. now rewrite rev_involutive.
  - unfold all_space in *. rewrite List.Forall_forall in *.
    intros c Hc. apply Hw. now apply in_rev.
Qed.

Lemma strip_nil_iff (s : pystr) : strip s = [] <-> all_space s.
Proof.
  rewrite <- lstrip_nil_iff. split.
  - intros E. destruct (strip_split s) as (w & Hs & Hw). rewrite E in Hs.
    simpl in Hs. destruct (lstrip s) as [|c r] eqn:El; [reflexivity|].
    apply lstrip_head in El. subst w. apply Forall_cons_1 in Hw as [Hc _]. congruence.
  - intros E. unfold strip. now rewrite E.
Qed.

Lemma strip_head (s : pystr) (c : N) (r : pystr) :
  strip s = c :: r -> isspace c = false.
Proof.
  intros E. destruct (strip_split s) as (w & Hs & _). rewrite E in Hs.
  simpl in Hs. now apply lstrip_head in Hs.
Qed.

(** ** What the POST view stores *)

Lemma effective_message_chosen (data : gmap string pystr) :
  or_str (or_get (data !! "msg"%string) (data !! "message"%string)) []
  = effective_message data.
Proof.
  unfold effective_message, or_get.
  destruct (data !! "msg"%string) as [[|c r]|]; simpl; trivial;
    destruct (data !! "message"%string) as [[|c' r']|]; reflexivity.
Qed.

Lemma upto_length (n : nat) (s : pystr) : (length (upto n s) <= n)%nat.
Proof. unfold upto. rewrite length_take. lia. Qed.

(** The row a successful creation appends meets the data model. *)
Lemma created_row_well_formed (utcnow : datetime) (req : request)
  (tbl : Table.t) (c : Comment.t) :
  post_comment utcnow req tbl = ((JComment (Comment.to_dict c), 201), tbl ++ [c]) ->
  well_formed c.
Proof.
  intros Hpost.
  destruct (post_comment_cases utcnow req tbl)
    as [[_ E]|[Hne (c' & E & _ & Hname & Hmsg & _ & Happ)]];
    rewrite E in Hpost; [discriminate|].
  apply (f_equal snd) in Hpost. cbn [snd] in Hpost.
  apply app_inj_tail in Hpost as [_ ->].
  set (data := if is_json req then json req else form req) in *.
  unfold well_formed. rewrite Hname, Hmsg, Happ. repeat split.
  - destruct (upto 80 _) eqn:En; simpl; lia.
  - pose proof (upto_length 80 (strip (or_str (data !! "name"%string) ANON))) as Hl.
    destruct (upto 80 _) eqn:En; simpl in *; lia.
  - destruct (upto 2000 _); [contradiction|simpl; lia].
  - apply upto_length.
  - destruct (strip _) as [|a r] eqn:Es; [now contradiction Hne|].
    exists a, (take 1999 r). split; [reflexivity|]. now apply strip_head in Es.
Qed.

(** X1: the POST view answers 400 [empty_message] only for a message of
    which every character is whitespace (the empty and the absent message
    included), and then leaves the table as it was: a message with one
    character that is not whitespace is never refused as empty. *)
Theorem empty_message_only_if_all_space (utcnow : datetime) (req : request)
  (tbl : Table.t) :
  let data := if is_json req then json req else form req in
  fst (post_comment utcnow req tbl) = (JError "empty_message", 400) ->
  all_space (effective_message data) /\ snd (post_comment utcnow req tbl) = tbl.
Proof.
  intros data.
  destruct (post_comment_cases utcnow req tbl)
    as [[Hnil E]|[_ (c & E & _)]]; rewrite E; cbn [fst snd]; [|discriminate].
  intros _. fold data in Hnil. rewrite effective_message_chosen in Hnil.
  apply upto_nil_iff, strip_nil_iff in Hnil. auto.
Qed.

Lemma empty_message_only_if_all_space_witness :
  effective_message (json blank_req) = py "   " /\
  all_space (effective_message (json blank_req)) /\
  snd (post_comment 0 blank_req (rows 3)) = rows 3.
Proof.
  split; [reflexivity|].
  apply (empty_message_only_if_all_space 0 blank_req (rows 3)). reflexivity.
Defined.

(** X2: a comment created from a body whose [name] is absent, empty or
    whitespace only is stored, and returned, under the default name. *)
Theorem blank_name_defaults (utcnow : datetime) (req : request) (tbl tbl' : Table.t)
  (d : DTO.t) :
  let data := if is_json req then json req else form req in
  blank (data !! "name"%string) ->
  post_comment utcnow req tbl = ((JComment d, 201), tbl') ->
  DTO.name d = ANON /\
  exists c, tbl' = tbl ++ [c] /\ Comment.name c = ANON.
Proof.
  intros data Hblank Hpost.
  destruct (post_comment_cases utcnow req tbl)
    as [[_ E]|[_ (c & E & _ & Hname & _)]]; rewrite E in Hpost; [discriminate|].
  injection Hpost as <- <-. fold data in Hname.
  assert (Comment.name c = ANON) as Hc.
  { rewrite Hname. unfold blank in Hblank.
    destruct (data !! "name"%string) as [[|a r]|]; simpl in *; try reflexivity.
    now rewrite Hblank. }
  split; [exact Hc|]. exists c. auto.
Qed.

Lemma blank_name_defaults_witness :
  blank (json both_req !! "name"%string) /\
  exists c, snd (post_comment 0 both_req []) = [] ++ [c] /\ Comment.name c = ANON.
Proof.
  split; [reflexivity|].
  apply (blank_name_defaults 0 both_req [] (snd (post_comment 0 both_req []))
           (Comment.to_dict (Comment.mk 1 ANON (py "a") 0 true)));
    reflexivity.
Defined.

Lemma step_keeps_rows_well_formed (key : pystr) (o : op) (st : state) :
  Forall well_formed (comments st) ->
  Forall well_formed (comments (snd (step key o st))).
Proof.
  intros Hwf. destruct o as [now utcnow req|comment_id req]; simpl.
  - unfold post_comment_route.
    destruct (rate_limited_cases (post_comment utcnow) now req st)
      as [[_ ->]|[_ ->]]; cbn [fst snd comments]; [|exact Hwf].
    destruct (post_comment_cases utcnow req (comments st))
      as [[_ E]|[_ (c & E & _)]]; rewrite E; cbn [snd]; [exact Hwf|].
    apply Forall_app. split; [exact Hwf|]. constructor; [|constructor].
    exact (created_row_well_formed utcnow req (comments st) c E).
  - unfold delete_comment_route, delete_comment.
    destruct (is_empty key || _); [exact Hwf|].
    destruct (Table.get comment_id (comments st)); [|exact Hwf].
    cbn [snd comments]. unfold Table.delete.
    rewrite List.Forall_forall in *. intros c Hc.
    apply filter_In in Hc as [Hc _]. auto.
Qed.

(** X3: serving any sequence of create and delete requests keeps the
    table within the data model: every row has a name of 1 to 80 characters,
    a message of 1 to 2000 characters that does not begin with whitespace,
    and is approved. *)
Theorem stored_rows_well_formed (key : pystr) (ops : list op) (st : state) :
  Forall well_formed (comments st) ->
  Forall well_formed (comments (snd (run key ops st))).
Proof.
  revert st. induction ops as [|o ops IH]; intros st Hwf; simpl; [exact Hwf|].
  pose proof (step_keeps_rows_well_formed key o st Hwf) as H1.
  destruct (step key o st) as [r st1]. simpl in H1.
  specialize (IH st1 H1). now destruct (run key ops st1).
Qed.

Lemma stored_rows_well_formed_witness :
  Forall well_formed (comments init) /\
  Forall well_formed
    (comments (snd (run (py "k") [Create 0 0 both_req; Create 1 0 ann_req;
                                  Delete 1 admin_req; Create 2 0 blank_req] init))).
Proof.
  split; [constructor|].
  apply (stored_rows_well_formed (py "k")
           [Create 0 0 both_req; Create 1 0 ann_req;
            Delete 1 admin_req; Create 2 0 blank_req] init).
  constructor.
Defined.

(** ** Pages of the listing *)

(** The rows of a page are a stretch of the newest-first ordering. *)
Lemma page_is_stretch (n m : Z) (ordering : Table.t) :
  exists rest,
    ordering = take (Z.to_nat m) ordering
               ++ Table.limit n (Table.offset m ordering) ++ rest.
Proof.
  destruct (limit_prefix n (Table.offset m ordering)) as [rest Hrest].
  exists rest. rewrite <- Hrest. unfold Table.offset. now rewrite take_drop.
Qed.

(** X4: the listing answers 400 [invalid pagination] exactly when [limit]
    or [offset] is present in the query and is not an integer literal; when
    both parse (absent parameters included) to integers the database can
    bind, it answers 200. *)
Theorem invalid_pagination_iff (int : pystr -> option Z) (req : request)
  (tbl : Table.t) :
  let bad k := exists s, args req !! k = Some s /\ int s = None in
  (get_comments int req tbl = (JError "invalid pagination", 400)
     <-> bad "limit"%string \/ bad "offset"%string) /\
  (forall l o,
     int_arg int "limit" 100 req = Some l -> int_arg int "offset" 0 req = Some o ->
     - 2 ^ 63 <= l -> o < 2 ^ 63 ->
     status (get_comments int req tbl) = 200).
Proof.
  intros bad. subst bad. split.
  - unfold get_comments, int_arg.
    destruct (args req !! "limit"%string) as [sl|] eqn:El;
      [destruct (int sl) as [l|] eqn:Il|];
      (destruct (args req !! "offset"%string) as [so|] eqn:Eo;
       [destruct (int so) as [o|] eqn:Io|]); simpl;
      (split;
       [ try discriminate; try (intros _; eauto)
       | try (intros _; reflexivity);
         intros [(s & Hs & Hi)|(s & Hs & Hi)]; congruence ]).
  - intros l o Hl Ho _ _. now rewrite (get_comments_parsed int req tbl l o Hl Ho).
Qed.

Lemma invalid_pagination_iff_witness :
  get_comments int_decimal (query_req [("limit"%string, py "ten")] []) (rows 3)
  = (JError "invalid pagination", 400) /\
  status (get_comments int_decimal first_page_req (rows 3)) = 200.
Proof.
  destruct (invalid_pagination_iff int_decimal
              (query_req [("limit"%string, py "ten")] []) (rows 3)) as [H1 _].
  destruct (invalid_pagination_iff int_decimal first_page_req (rows 3)) as [_ H2].
  split.
  - apply H1. left. exists (py "ten"). split; reflexivity.
  - apply (H2 2 1); [reflexivity | reflexivity | lia | lia].
Defined.

(** X5: for a limit that is not negative and an offset the database can
    bind, the page holds exactly as many items as the limit, capped at 200,
    allows and the approved rows beyond the offset, a negative offset
    counting as 0, provide. *)
Theorem listing_page_length (int : pystr -> option Z) (req : request)
  (tbl : Table.t) (l o : Z) :
  int_arg int "limit" 100 req = Some l -> int_arg int "offset" 0 req = Some o ->
  0 <= l -> o < 2 ^ 63 ->
  exists items,
    get_comments int req tbl = (JComments items, 200) /\
    length items
    = Nat.min (Z.to_nat (Z.min 200 l))
              (length (List.filter Comment.approved tbl) - Z.to_nat (Z.max 0 o)).
Proof.
  intros Hl Ho Hnn _. eexists.
  split; [exact (get_comments_parsed int req tbl l o Hl Ho)|].
  rewrite length_map, limit_length by lia. unfold Table.offset.
  rewrite length_drop, (Permutation_length (order_by_ts_desc_perm _)).
  reflexivity.
Qed.

Lemma listing_page_length_witness :
  exists items,
    get_comments int_decimal first_page_req (rows 3) = (JComments items, 200) /\
    length items = 2%nat.
Proof.
  destruct (listing_page_length int_decimal first_page_req (rows 3) 2 1)
    as (items & H & Hlen); [reflexivity | reflexivity | lia | lia |].
  exists items. split; [exact H|]. rewrite Hlen. reflexivity.
Defined.

(** X6: consecutive pages join without gap or overlap: a page of [a] items
    from offset [o] followed by the page of [b] items from offset [o + a] is
    the page of [a + b] items from offset [o], as long as [a + b] stays
    within the cap of 200 and the offsets are integers the database can
    bind. *)
Theorem listing_pages_join (int : pystr -> option Z) (r1 r2 r12 : request)
  (tbl : Table.t) (a b o : Z) :
  int_arg int "limit" 100 r1 = Some a -> int_arg int "offset" 0 r1 = Some o ->
  int_arg int "limit" 100 r2 = Some b -> int_arg int "offset" 0 r2 = Some (o + a) ->
  int_arg int "limit" 100 r12 = Some (a + b) -> int_arg int "offset" 0 r12 = Some o ->
  0 <= a -> 0 <= b -> a + b <= 200 -> 0 <= o -> o + a < 2 ^ 63 ->
  exists i1 i2,
    get_comments int r1 tbl = (JComments i1, 200) /\
    get_comments int r2 tbl = (JComments i2, 200) /\
    get_comments int r12 tbl = (JComments (i1 ++ i2), 200).
Proof.
  intros Ha Ho Hb Hoa Hab Ho' Ha0 Hb0 Hcap Ho0 _.
  do 2 eexists.
  rewrite (get_comments_parsed int r1 tbl a o Ha Ho),
          (get_comments_parsed int r2 tbl b (o + a) Hb Hoa),
          (get_comments_parsed int r12 tbl (a + b) o Hab Ho').
  split; [reflexivity|]. split; [reflexivity|].
  f_equal. rewrite <- map_app. f_equal.
  unfold Table.limit, Table.offset.
  replace (Z.min 200 a <? 0) with false by lia.
  replace (Z.min 200 b <? 0) with false by lia.
  replace (Z.min 200 (a + b) <? 0) with false by lia.
  replace (Z.to_nat (Z.max 0 (o + a)))
    with (Z.to_nat (Z.max 0 o) + Z.to_nat (Z.min 200 a))%nat by lia.
  rewrite <- drop_drop, take_take_drop. do 2 f_equal. lia.
Qed.

Lemma listing_pages_join_witness :
  exists i1 i2,
    get_comments int_decimal first_page_req (rows 7) = (JComments i1, 200) /\
    get_comments int_decimal next_page_req (rows 7) = (JComments i2, 200) /\
    get_comments int_decimal span_page_req (rows 7) = (JComments (i1 ++ i2), 200) /\
    map DTO.id i1 = [6; 5] /\ map DTO.id i2 = [4; 3; 2].
Proof.
  destruct (listing_pages_join int_decimal first_page_req next_page_req
              span_page_req (rows 7) 2 3 1) as (i1 & i2 & H1 & H2 & H12);
    try reflexivity; try lia.
  exists i1, i2. do 3 (split; [assumption|]).
  vm_compute in H1. injection H1 as <-. vm_compute in H2. injection H2 as <-.
  split; reflexivity.
Defined.

(** X8: a listing from offset 0 whose limit is negative (and an integer
    the database can bind), or is at least the number of approved rows while
    that number is at most 200, shows every approved row of the table. *)
Theorem listing_shows_all (int : pystr -> option Z) (req : request)
  (tbl : Table.t) (l o : Z) :
  int_arg int "limit" 100 req = Some l -> int_arg int "offset" 0 req = Some o ->
  o <= 0 -> - 2 ^ 63 <= l ->
  l < 0 \/ Z.of_nat (length (List.filter Comment.approved tbl)) <= Z.min 200 l ->
  exists items,
    get_comments int req tbl = (JComments items, 200) /\
    length items = length (List.filter Comment.approved tbl) /\
    forall c, c ∈ tbl -> Comment.approved c = true -> Comment.to_dict c ∈ items.
Proof.
  intros Hl Ho Ho0 _ Hfit. eexists.
  split; [exact (get_comments_parsed int req tbl l o Hl Ho)|].
  replace (Z.max 0 o) with 0 by lia. unfold Table.offset.
  change (Z.to_nat 0) with 0%nat. rewrite drop_0.
  assert (Table.limit (Z.min 200 l)
            (Table.order_by_ts_desc (Table.filter_by_approved tbl))
          = Table.order_by_ts_desc (Table.filter_by_approved tbl)) as ->.
  { unfold Table.limit. destruct (Z.min 200 l <? 0) eqn:E; [reflexivity|].
    apply Z.ltb_ge in E. apply take_ge.
    rewrite (Permutation_length (order_by_ts_desc_perm _)).
    unfold Table.filter_by_approved. lia. }
  split.
  - rewrite length_map. apply Permutation_length, order_by_ts_desc_perm.
  - intros c Hc Happ. apply list_elem_of_fmap. exists c. split; [reflexivity|].
    rewrite order_by_ts_desc_perm. now apply filter_by_approved_spec.
Qed.

Lemma listing_shows_all_witness :
  exists items,
    get_comments int_decimal plain_req (rows 7) = (JComments items, 200) /\
    length items = 7%nat.
Proof.
  destruct (listing_shows_all int_decimal plain_req (rows 7) 100 0)
    as (items & H & Hlen & _);
    [reflexivity | reflexivity | lia | lia | right; vm_compute; discriminate |].
  exists items. split; [exact H|]. rewrite Hlen. reflexivity.
Defined.

(** ** Deletion with a secret configured *)

Lemma get_None (comment_id : Z) (tbl : Table.t) :
  Table.get comment_id tbl = None <-> comment_id ∉ ids tbl.
Proof.
  unfold Table.get, ids. induction tbl as [|c tbl IH]; simpl.
  - split; [intros _; apply not_elem_of_nil|reflexivity].
  - rewrite not_elem_of_cons. destruct (Z.eqb_spec (Comment.id c) comment_id).
    + split; [discriminate|]. intros [H _]. congruence.
    + rewrite IH. split; [intros H; split; [congruence|exact H]|intros [_ H]; exact H].
Qed.

Lemma get_Some (comment_id : Z) (tbl : Table.t) (c : Comment.t) :
  Table.get comment_id tbl = Some c -> c ∈ tbl /\ Comment.id c = comment_id.
Proof.
  unfold Table.get. intros H. apply find_some in H as [Hin Hid].
  split; [now apply list_elem_of_In|]. now apply Z.eqb_eq.
Qed.

Lemma elem_of_delete (c0 c : Comment.t) (tbl : Table.t) :
  c ∈ Table.delete c0 tbl <-> c ∈ tbl /\ Comment.id c <> Comment.id c0.
Proof.
  unfold Table.delete. rewrite !list_elem_of_In, filter_In.
  rewrite Bool.negb_true_iff, Z.eqb_neq. reflexivity.
Qed.

(** With the configured secret presented, the view goes on to the table. *)
Lemma delete_comment_authorised (key : pystr) (comment_id : Z) (req : request)
  (tbl : Table.t) :
  key <> [] ->
  or_str (or_get (headers req !! "X-ADMIN-KEY"%string)
                 (args req !! "admin_key"%string)) [] = key ->
  delete_comment key comment_id req tbl
  = match Table.get comment_id tbl with
    | None => ((JError "not_found", 404), tbl)
    | Some c => ((JOk, 200), Table.delete c tbl)
    end.
Proof.
  intros Hne Hkey. unfold delete_comment. rewrite Hkey.
  rewrite bool_decide_eq_true_2 by reflexivity.
  destruct key; [contradiction|reflexivity].
Qed.

Lemma header_key_presented (key : pystr) (other : option pystr) :
  key <> [] -> or_str (or_get (Some key) other) [] = key.
Proof. intros Hne. destruct key; [contradiction|reflexivity]. Qed.

(** X9: with a secret configured and presented in the [X-ADMIN-KEY]
    header, and for an id that the route accepts and the database can bind
    (from 0 to 2^63 - 1), deleting an id that no row carries answers 404 and
    leaves the table as it was; deleting an id that is present answers 200
    and leaves exactly the rows that carry another id. *)
Theorem delete_with_secret (key : pystr) (comment_id : Z) (req : request)
  (tbl : Table.t) :
  key <> [] -> headers req !! "X-ADMIN-KEY"%string = Some key ->
  0 <= comment_id < 2 ^ 63 ->
  ((comment_id ∉ ids tbl) ->
     delete_comment key comment_id req tbl = ((JError "not_found", 404), tbl)) /\
  ((comment_id ∈ ids tbl) ->
     exists tbl', delete_comment key comment_id req tbl = ((JOk, 200), tbl') /\
                  (comment_id ∉ ids tbl') /\
                  forall c, c ∈ tbl' <-> c ∈ tbl /\ Comment.id c <> comment_id).
Proof.
  intros Hne Hhdr _.
  rewrite (delete_comment_authorised key comment_id req tbl Hne)
    by (rewrite Hhdr; now apply header_key_presented).
  destruct (Table.get comment_id tbl) as [c0|] eqn:Eg.
  - apply get_Some in Eg as [Hc0 Hid]. split.
    + intros Hnot. exfalso. apply Hnot. unfold ids.
      apply list_elem_of_fmap. exists c0. auto.
    + intros _. exists (Table.delete c0 tbl). split; [reflexivity|].
      assert (forall c, c ∈ Table.delete c0 tbl <-> c ∈ tbl /\ Comment.id c <> comment_id)
        as Hin by (intros c; rewrite elem_of_delete, Hid; reflexivity).
      split; [|exact Hin].
      unfold ids. intros Hc. apply list_elem_of_fmap in Hc as (c & Hc & Hc').
      apply Hin in Hc' as [_ Hc']. congruence.
  - apply get_None in Eg. split; [reflexivity|]. intros H. contradiction.
Qed.

Lemma delete_with_secret_witness :
  delete_comment (py "k") 9 admin_req (rows 3) = ((JError "not_found", 404), rows 3) /\
  exists tbl', delete_comment (py "k") 2 admin_req (rows 3) = ((JOk, 200), tbl') /\
               ids tbl' = [1; 3].
Proof.
  destruct (delete_with_secret (py "k") 9 admin_req (rows 3)) as [H9 _];
    [discriminate | reflexivity | lia |].
  destruct (delete_with_secret (py "k") 2 admin_req (rows 3)) as [_ H2];
    [discriminate | reflexivity | lia |].
  split.
  - apply H9. vm_compute. intros H. repeat (apply elem_of_cons in H as [H|H]; [discriminate|]).
    now apply elem_of_nil in H.
  - destruct H2 as (tbl' & E & _); [vm_compute; do 1 right; left|].
    exists tbl'. split; [exact E|].
    vm_compute in E. injection E as <-. reflexivity.
Defined.

(** X10: the key that counts is the one in the [X-ADMIN-KEY] header
    whenever that header is present and not empty, whatever [admin_key]
    says in the query string; the query string is consulted only when the
    header is absent or empty.  The request passes the key check (is not
    answered 403) exactly when the key that counts is the configured,
    non-empty secret. *)
Theorem header_key_first (ADMIN_KEY : pystr) (comment_id : Z) (req : request)
  (tbl : Table.t) :
  let passes := status (fst (delete_comment ADMIN_KEY comment_id req tbl)) <> 403 in
  (forall h : pystr, headers req !! "X-ADMIN-KEY"%string = Some h -> h <> [] ->
     (passes <-> h = ADMIN_KEY)) /\
  (truthy (headers req !! "X-ADMIN-KEY"%string) = false ->
     (passes <-> ADMIN_KEY <> [] /\ args req !! "admin_key"%string = Some ADMIN_KEY)).
Proof.
  intros passes. subst passes. unfold delete_comment.
  split.
  - intros h Hh Hne. rewrite Hh, header_key_presented by exact Hne.
    destruct (decide (h = ADMIN_KEY)) as [->|Hd].
    + rewrite bool_decide_eq_true_2 by reflexivity.
      destruct ADMIN_KEY; [contradiction|]. simpl.
      split; [reflexivity|]. intros _.
      destruct (Table.get comment_id tbl); discriminate.
    + rewrite bool_decide_eq_false_2 by exact Hd.
      rewrite Bool.orb_true_r. simpl. split; [intros H; now contradiction H|contradiction].
  - intros Hf. unfold or_get. rewrite Hf.
    destruct ADMIN_KEY as [|a k]; simpl.
    + split; [intros H; now contradiction H|intros [H _]; now contradiction H].
    + destruct (args req !! "admin_key"%string) as [[|b q]|] eqn:Ea; simpl.
      * try rewrite bool_decide_eq_false_2 by discriminate. simpl.
        split; [intros H; now contradiction H|intros [_ H]; discriminate].
      * destruct (decide (b :: q = a :: k)) as [E|Hd].
        -- rewrite bool_decide_eq_true_2 by exact E. simpl. rewrite E.
           split; [intros _; split; [discriminate|reflexivity]|].
           intros _. destruct (Table.get comment_id tbl); discriminate.
        -- rewrite bool_decide_eq_false_2 by exact Hd. simpl.
           split; [intros H; now contradiction H|intros [_ H]; congruence].
      * try rewrite bool_decide_eq_false_2 by discriminate. simpl.
        split; [intros H; now contradiction H|intros [_ H]; discriminate].
Qed.

Lemma header_key_first_witness :
  ~ status (fst (delete_comment (py "k") 2 two_keys_req (rows 3))) <> 403 /\
  status (fst (delete_comment (py "k") 2 query_key_req (rows 3))) <> 403.
Proof.
  destruct (header_key_first (py "k") 2 two_keys_req (rows 3)) as [H1 _].
  destruct (header_key_first (py "k") 2 query_key_req (rows 3)) as [_ H2].
  split.
  - intros Hp. apply (H1 (py "x")) in Hp; [discriminate | reflexivity | discriminate].
  - apply H2; [reflexivity|]. split; [discriminate|reflexivity].
Defined.

(** X11: a listing of the table as a delete answered 200 leaves it,
    whatever the pagination, holds no item with the deleted id.  (A later
    creation may be given that id again, and is then listed under it.) *)
Theorem deleted_comment_not_listed (key : pystr) (comment_id : Z)
  (req lreq : request) (tbl tbl' : Table.t) (int : pystr -> option Z)
  (items : list DTO.t) :
  delete_comment key comment_id req tbl = ((JOk, 200), tbl') ->
  get_comments int lreq tbl' = (JComments items, 200) ->
  Forall (fun d => DTO.id d <> comment_id) items.
Proof.
  unfold delete_comment.
  destruct (is_empty key || _); [discriminate|].
  destruct (Table.get comment_id tbl) as [c0|] eqn:Eg; [|discriminate].
  apply get_Some in Eg as [_ Hid]. intros H. injection H as <-.
  unfold get_comments.
  destruct (int_arg int "limit" 100 lreq) as [l|]; [|discriminate].
  destruct (int_arg int "offset" 0 lreq) as [o|]; [|discriminate].
  intros H. injection H as <-.
  destruct (page_is_stretch (Z.min 200 l) (Z.max 0 o)
              (Table.order_by_ts_desc (Table.filter_by_approved (Table.delete c0 tbl))))
    as [rest E].
  apply List.Forall_forall. intros d Hd.
  apply in_map_iff in Hd as (c & <- & Hc). apply list_elem_of_In in Hc.
  assert (c ∈ Table.delete c0 tbl) as Hin.
  { apply (filter_by_approved_spec c). rewrite <- order_by_ts_desc_perm.
    rewrite E, !elem_of_app. auto. }
  apply elem_of_delete in Hin as [_ Hne]. simpl. congruence.
Qed.

Lemma deleted_comment_not_listed_witness :
  exists items,
    get_comments int_decimal plain_req (snd (delete_comment (py "k") 2 admin_req (rows 3)))
      = (JComments items, 200) /\
    map DTO.id items = [3; 1] /\
    Forall (fun d => DTO.id d <> 2) items.
Proof.
  eexists. split; [reflexivity|]. split; [reflexivity|].
  apply (deleted_comment_not_listed (py "k") 2 admin_req plain_req (rows 3)
           (snd (delete_comment (py "k") 2 admin_req (rows 3))) int_decimal);
    reflexivity.
Defined.

(** X12: the request of a delete answered 200, sent again to the table
    that delete leaves (no creation in between), is answered 404 and
    changes nothing. *)
Theorem delete_again_not_found (key : pystr) (comment_id : Z) (req : request)
  (tbl tbl' : Table.t) :
  delete_comment key comment_id req tbl = ((JOk, 200), tbl') ->
  delete_comment key comment_id req tbl' = ((JError "not_found", 404), tbl').
Proof.
  unfold delete_comment.
  destruct (is_empty key || _); [discriminate|].
  destruct (Table.get comment_id tbl) as [c0|] eqn:Eg; [|discriminate].
  apply get_Some in Eg as [_ Hid]. intros H. injection H as <-.
  assert (Table.get comment_id (Table.delete c0 tbl) = None) as ->; [|reflexivity].
  apply get_None. unfold ids. intros Hc.
  apply list_elem_of_fmap in Hc as (c & Hc & Hin).
  apply elem_of_delete in Hin as [_ Hne]. congruence.
Qed.

Lemma delete_again_not_found_witness :
  delete_comment (py "k") 2 admin_req (snd (delete_comment (py "k") 2 admin_req (rows 3)))
  = ((JError "not_found", 404), snd (delete_comment (py "k") 2 admin_req (rows 3))).
Proof.
  apply (delete_again_not_found (py "k") 2 admin_req (rows 3)). reflexivity.
Defined.

Lemma filter_keeps_all {A} (f : A -> bool) (l : list A) :
  Forall (fun x => f x = true) l -> List.filter f l = l.
Proof.
  induction 1 as [|x l Hx _ IH]; simpl; [reflexivity|]. now rewrite Hx, IH.
Qed.

(** X13: creating a comment and then deleting the id the creation returned,
    with the configured secret in the header, gives back the table as it
    was before the creation. *)
Theorem create_then_delete_restores (key : pystr) (utcnow : datetime)
  (req dreq : request) (tbl tbl' : Table.t) (d : DTO.t) :
  post_comment utcnow req tbl = ((JComment d, 201), tbl') ->
  key <> [] -> headers dreq !! "X-ADMIN-KEY"%string = Some key ->
  delete_comment key (DTO.id d) dreq tbl' = ((JOk, 200), tbl).
Proof.
  intros Hpost Hne Hhdr.
  destruct (post_comment_cases utcnow req tbl)
    as [[_ E]|[_ (c & E & Hid & _)]]; rewrite E in Hpost; [discriminate|].
  injection Hpost as <- <-.
  change (DTO.id (Comment.to_dict c)) with (Comment.id c).
  rewrite (delete_comment_authorised key _ dreq _ Hne)
    by (rewrite Hhdr; now apply header_key_presented).
  pose proof (ids_below_next tbl) as Hlt. rewrite <- Hid in Hlt.
  assert (Forall (fun x => Comment.id x <> Comment.id c) tbl) as Hother.
  { unfold ids in Hlt. rewrite List.Forall_forall in *. intros x Hx.
    specialize (Hlt (Comment.id x) (in_map _ _ _ Hx)). simpl in Hlt. lia. }
  assert (Table.get (Comment.id c) (tbl ++ [c]) = Some c) as ->.
  { unfold Table.get. clear -Hother.
    induction Hother as [|x l Hx _ IH]; simpl.
    - now rewrite Z.eqb_refl.
    - apply Z.eqb_neq in Hx. now rewrite Hx. }
  unfold Table.delete. rewrite List.filter_app. simpl. rewrite Z.eqb_refl. simpl.
  rewrite app_nil_r, filter_keeps_all; [reflexivity|].
  eapply List.Forall_impl; [|exact Hother]. simpl. intros x Hx.
  apply Bool.negb_true_iff. now apply Z.eqb_neq.
Qed.

Lemma create_then_delete_restores_witness :
  delete_comment (py "k") 4 admin_req (snd (post_comment 9 ann_req (rows 3)))
  = ((JOk, 200), rows 3).
Proof.
  apply (create_then_delete_restores (py "k") 9 ann_req admin_req (rows 3)
           (snd (post_comment 9 ann_req (rows 3)))
           (Comment.to_dict (Comment.mk 4 (py "Ann") (py "hi") 9 true)));
    [reflexivity | discriminate | reflexivity].
Defined.

(** ** The rate limiter over time *)

Lemma entry_after_admission (func : view) (now : Q) (req : request) (st : state) :
  (length (prune now (entry st (client_ip req))) < RATE_LIMIT_MAX)%nat ->
  entry (snd (rate_limited func now req st)) (client_ip req)
  = prune now (entry st (client_ip req)) ++ [now].
Proof.
  intros Hlt. unfold entry in *.
  destruct (rate_limited_cases func now req st) as [[_ ->]|[Hge _]];
    [|apply Nat.lt_nge in Hlt; contradiction].
  cbn [snd rate_store]. now rewrite lookup_insert_eq.
Qed.

Lemma entry_elsewhere (func : view) (now : Q) (req : request) (st : state)
  (ip : string) :
  ip <> client_ip req ->
  entry (snd (rate_limited func now req st)) ip = entry st ip.
Proof.
  intros Hne. unfold entry.
  destruct (rate_limited_cases func now req st) as [[_ ->]|[_ ->]];
    cbn [snd rate_store]; [|reflexivity].
  now rewrite lookup_insert_ne by congruence.
Qed.

Lemma entry_after_rejection (func : view) (now : Q) (req : request) (st : state) :
  (RATE_LIMIT_MAX <= length (prune now (entry st (client_ip req))))%nat ->
  rate_limited func now req st
  = ((JErrorDetail "rate_limit_exceeded" "Max 5 posts per 60s", 429), st).
Proof.
  intros Hge. unfold entry in *.
  destruct (rate_limited_cases func now req st) as [[Hlt _]|[_ ->]];
    [apply Nat.lt_nge in Hlt; contradiction|reflexivity].
Qed.

(** The answer of the POST route tells whether the limiter let it through. *)
Lemma post_route_admitted_iff (now : Q) (utcnow : datetime) (req : request)
  (st : state) :
  (status (fst (post_comment_route now utcnow req st)) =? 429) = false
  <-> (length (prune now (entry st (client_ip req))) < RATE_LIMIT_MAX)%nat.
Proof.
  unfold post_comment_route, entry.
  destruct (rate_limited_cases (post_comment utcnow) now req st)
    as [[Hlt ->]|[Hge ->]]; cbn [fst].
  - split; [intros _; exact Hlt|]. intros _.
    destruct (post_comment_status utcnow req (comments st)) as [-> | ->]; reflexivity.
  - split; [discriminate|]. intros Hlt. apply Nat.lt_nge in Hlt. contradiction.
Qed.

Lemma sublist_prune (now : Q) (adm arr : list Q) :
  adm `sublist_of` arr -> Forall (fun a => (now - a < 60)%Q) adm ->
  adm `sublist_of` prune now arr.
Proof.
  unfold prune. induction 1 as [|x l1 l2 _ IH|x l1 l2 _ IH]; simpl; intros Hf.
  - constructor.
  - apply Forall_cons_1 in Hf as [Hx Hf].
    apply Qltb_lt in Hx. unfold RATE_LIMIT_WINDOW. rewrite Hx.
    constructor. auto.
  - destruct (Qltb (now - x) RATE_LIMIT_WINDOW); [constructor|]; auto.
Qed.

(** X14: a creation request leaves the timestamps recorded for every other
    address as they were, whether it is let through or refused, and whatever
    the decorated view does. *)
Theorem other_addresses_untouched (func : view) (now : Q) (req : request)
  (st : state) (ip : string) :
  ip <> client_ip req ->
  rate_store (snd (rate_limited func now req st)) !! ip = rate_store st !! ip.
Proof.
  intros Hne.
  destruct (rate_limited_cases func now req st) as [[_ ->]|[_ ->]];
    cbn [snd rate_store]; [|reflexivity].
  now rewrite lookup_insert_ne by congruence.
Qed.

Lemma other_addresses_untouched_witness :
  rate_store (snd (rate_limited (post_comment 0) 105
                     (post_req "5.6.7.8" [("msg"%string, py "yo")]) busy))
    !! "1.2.3.4"%string
  = Some [0; 100; 101; 102; 103; 104]%Q.
Proof.
  rewrite (other_addresses_untouched (post_comment 0) 105
             (post_req "5.6.7.8" [("msg"%string, py "yo")]) busy "1.2.3.4");
    [reflexivity | discriminate].
Defined.

(** X15: when every timestamp recorded for an address is 60 seconds old or
    older, a first request of the address included, the creation request is
    let through and the address's record becomes the single reading [now]. *)
Theorem quiet_address_admitted (now : Q) (utcnow : datetime) (req : request)
  (st : state) :
  Forall (fun t => (60 <= now - t)%Q) (entry st (client_ip req)) ->
  status (fst (post_comment_route now utcnow req st)) <> 429 /\
  entry (snd (post_comment_route now utcnow req st)) (client_ip req) = [now].
Proof.
  intros Hold.
  assert (prune now (entry st (client_ip req)) = []) as Hnil.
  { unfold prune. induction Hold as [|t arr Ht _ IH]; simpl; [reflexivity|].
    destruct (Qltb (now - t) RATE_LIMIT_WINDOW) eqn:E; [|exact IH].
    apply Qltb_lt in E. unfold RATE_LIMIT_WINDOW in E. exfalso.
    exact (Qlt_not_le _ _ E Ht). }
  assert (length (prune now (entry st (client_ip req))) < RATE_LIMIT_MAX)%nat as Hlt
    by (rewrite Hnil; unfold RATE_LIMIT_MAX; simpl; lia).
  split.
  - pose proof (proj2 (post_route_admitted_iff now utcnow req st) Hlt) as Hs.
    intros H429. rewrite H429 in Hs. discriminate.
  - unfold post_comment_route. rewrite entry_after_admission by exact Hlt.
    now rewrite Hnil.
Qed.

Lemma quiet_address_admitted_witness :
  status (fst (post_comment_route 164 0 ann_req busy)) <> 429 /\
  entry (snd (post_comment_route 164 0 ann_req busy)) "1.2.3.4" = [164%Q].
Proof.
  apply (quiet_address_admitted 164 0 ann_req busy).
  vm_compute. repeat constructor; discriminate.
Defined.

Lemma delete_route_keeps_rate_store (key : pystr) (comment_id : Z) (req : request)
  (st : state) :
  rate_store (snd (delete_comment_route key comment_id req st)) = rate_store st.
Proof.
  unfold delete_comment_route.
  now destruct (delete_comment key comment_id req (comments st)).
Qed.

Lemma step_keeps_entries_bounded (key : pystr) (o : op) (st : state) :
  (forall ip, (length (entry st ip) <= RATE_LIMIT_MAX)%nat) ->
  forall ip, (length (entry (snd (step key o st)) ip) <= RATE_LIMIT_MAX)%nat.
Proof.
  intros Hb ip. destruct o as [now utcnow req|comment_id req]; simpl.
  - unfold post_comment_route.
    destruct (decide (ip = client_ip req)) as [->|Hne];
      [|now rewrite entry_elsewhere].
    destruct (Nat.lt_ge_cases (length (prune now (entry st (client_ip req))))
                RATE_LIMIT_MAX) as [Hlt|Hge].
    + rewrite entry_after_admission by exact Hlt.
      rewrite length_app. simpl. lia.
    + rewrite entry_after_rejection by exact Hge. apply Hb.
  - unfold entry. rewrite delete_route_keeps_rate_store. apply Hb.
Qed.

(** X16: serving any sequence of create and delete requests never lets the
    record of an address grow beyond [RATE_LIMIT_MAX] = 5 timestamps. *)
Theorem rate_store_entries_bounded (key : pystr) (ops : list op) (st : state) :
  (forall ip, (length (entry st ip) <= RATE_LIMIT_MAX)%nat) ->
  forall ip, (length (entry (snd (run key ops st)) ip) <= RATE_LIMIT_MAX)%nat.
Proof.
  revert st. induction ops as [|o ops IH]; intros st Hb; simpl; [exact Hb|].
  pose proof (step_keeps_entries_bounded key o st Hb) as H1.
  destruct (step key o st) as [r st1]. simpl in H1.
  specialize (IH st1 H1). now destruct (run key ops st1).
Qed.

Lemma rate_store_entries_bounded_witness :
  (length (entry (snd (run (py "k") burst init)) "1.2.3.4") <= RATE_LIMIT_MAX)%nat.
Proof.
  apply (rate_store_entries_bounded (py "k") burst init).
  intros ip. unfold entry, init. simpl. rewrite lookup_empty. simpl.
  unfold RATE_LIMIT_MAX. lia.
Defined.

(** The readings let through so far stay on record, in order, while the
    later attempts fall within the window; so they and the ones to come
    number five at most. *)
Lemma admitted_room (key : pystr) (ip : string) (ops : list op) :
  forall (st : state) (adm : list Q),
    adm `sublist_of` entry st ip ->
    (length adm <= RATE_LIMIT_MAX)%nat ->
    Forall (fun a => Forall (fun t => (t - a < 60)%Q) (attempts ip ops)) adm ->
    within_window (attempts ip ops) ->
    (length adm + length (admitted key ip ops st) <= RATE_LIMIT_MAX)%nat.
Proof.
  induction ops as [|o ops IH]; intros st adm Hsub Hlen Hnear Hwin;
    [simpl; lia|].
  destruct o as [now utcnow req|comment_id req]; cbn [admitted attempts] in *.
  - destruct (String.eqb (client_ip req) ip) eqn:Eip.
    + apply String.eqb_eq in Eip. subst ip. cbn [andb step].
      destruct Hwin as [Hnow Hwin].
      assert (Forall (fun a => (now - a < 60)%Q) adm) as Hadm.
      { eapply List.Forall_impl; [|exact Hnear]. simpl. intros a Ha.
        now apply Forall_cons_1 in Ha as [Ha _]. }
      assert (Forall (fun a => Forall (fun t => (t - a < 60)%Q)
                                 (attempts (client_ip req) ops)) adm) as Hnear'.
      { eapply List.Forall_impl; [|exact Hnear]. simpl. intros a Ha.
        now apply Forall_cons_1 in Ha as [_ Ha]. }
      pose proof (sublist_prune now adm _ Hsub Hadm) as Hsub'.
      pose proof (sublist_length _ _ Hsub') as Hle.
      destruct (status (fst (post_comment_route now utcnow req st)) =? 429) eqn:Es.
      * cbn [negb]. unfold post_comment_route in *.
        assert (RATE_LIMIT_MAX <= length (prune now (entry st (client_ip req))))%nat
          as Hge.
        { apply Nat.le_ngt. intros Hlt.
          apply (post_route_admitted_iff now utcnow req st) in Hlt.
          unfold post_comment_route in Hlt. congruence. }
        rewrite entry_after_rejection by exact Hge. cbn [snd].
        now apply IH.
      * cbn [negb]. apply (post_route_admitted_iff now utcnow req st) in Es.
        unfold RATE_LIMIT_MAX in *.
        specialize (IH (snd (post_comment_route now utcnow req st)) (adm ++ [now])).
        rewrite length_app in IH. simpl in *.
        assert (length adm + 1 + length (admitted key (client_ip req) ops
                  (snd (post_comment_route now utcnow req st))) <= 5)%nat; [|lia].
        apply IH; [| lia | | exact Hwin].
        -- unfold post_comment_route. rewrite entry_after_admission by exact Es.
           apply sublist_app; [exact Hsub'|reflexivity].
        -- apply Forall_app. split; [exact Hnear'|]. constructor; [exact Hnow|constructor].
    + cbn [andb step]. apply IH; try assumption.
      unfold post_comment_route. rewrite entry_elsewhere; [exact Hsub|].
      intros E. subst ip. now rewrite String.eqb_refl in Eip.
  - cbn [step]. apply IH; try assumption.
    unfold entry in *. now rewrite delete_route_keeps_rate_store.
Qed.

(** X17: among the creation requests of one address, taken from any
    sequence of requests in which each of them comes less than 60 seconds
    after each earlier one, at most [RATE_LIMIT_MAX] = 5 are let through,
    whatever the state the sequence starts from and whatever other requests
    come in between. *)
Theorem at_most_five_admitted (key : pystr) (ip : string) (ops : list op)
  (st : state) :
  within_window (attempts ip ops) ->
  (length (admitted key ip ops st) <= RATE_LIMIT_MAX)%nat.
Proof.
  intros Hwin.
  pose proof (admitted_room key ip ops st [] (sublist_nil_l _)) as H.
  simpl in H. apply H; [unfold RATE_LIMIT_MAX; lia | constructor | exact Hwin].
Qed.

Lemma at_most_five_admitted_witness :
  attempts "1.2.3.4" burst = [0; 10; 20; 30; 40; 59]%Q /\
  admitted (py "k") "1.2.3.4" burst init = [0; 10; 20; 30; 40]%Q /\
  (length (admitted (py "k") "1.2.3.4" burst init) <= RATE_LIMIT_MAX)%nat.
Proof.
  split; [reflexivity|]. split; [reflexivity|].
  apply (at_most_five_admitted (py "k") "1.2.3.4" burst init).
  vm_compute. repeat split; repeat constructor.
Defined.

Lemma step_keeps_addresses (key : pystr) (o : op) (st : state) :
  dom (rate_store st) ⊆ dom (rate_store (snd (step key o st))).
Proof.
  destruct o as [now utcnow req|comment_id req]; simpl.
  - unfold post_comment_route.
    destruct (rate_limited_cases (post_comment utcnow) now req st)
      as [[_ ->]|[_ ->]]; cbn [snd rate_store]; [|reflexivity].
    apply dom_insert_subseteq.
  - now rewrite delete_route_keeps_rate_store.
Qed.

(** X18: no request ever removes an address from the rate limiter's
    mapping: the addresses on record before a sequence of create and delete
    requests are on record after it. *)
Theorem addresses_never_forgotten (key : pystr) (ops : list op) (st : state) :
  dom (rate_store st) ⊆ dom (rate_store (snd (run key ops st))).
Proof.
  revert st. induction ops as [|o ops IH]; intros st; simpl; [reflexivity|].
  pose proof (step_keeps_addresses key o st) as H1.
  destruct (step key o st) as [r st1]. simpl in H1.
  specialize (IH st1). destruct (run key ops st1). simpl in *.
  etransitivity; eassumption.
Qed.

(** X19: whatever the POST route answers, the table changes only together
    with a 201, and then by exactly one row, appended at the end, whose
    record the response carries. *)
Theorem post_route_all_or_nothing (now : Q) (utcnow : datetime) (req : request)
  (st : state) :
  let resp := fst (post_comment_route now utcnow req st) in
  let st' := snd (post_comment_route now utcnow req st) in
  (status resp <> 201 -> comments st' = comments st) /\
  (status resp = 201 ->
     exists c, resp = (JComment (Comment.to_dict c), 201) /\
               comments st' = comments st ++ [c]).
Proof.
  intros resp st'. subst resp st'. unfold post_comment_route.
  destruct (rate_limited_cases (post_comment utcnow) now req st)
    as [[_ ->]|[_ ->]]; cbn [fst snd comments].
  - destruct (post_comment_cases utcnow req (comments st))
      as [[_ ->]|[_ (c & -> & _)]]; cbn [fst snd]; unfold status; simpl.
    + split; [reflexivity|discriminate].
    + split; [intros H; now contradiction H|]. intros _. eauto.
  - unfold status; simpl. split; [reflexivity|discriminate].
Qed.

Lemma post_route_all_or_nothing_witness :
  comments (snd (post_comment_route 105 0 ann_req two_clients))
    = comments two_clients /\
  comments (snd (post_comment_route 105 0 blank_req init)) = comments init /\
  exists c, fst (post_comment_route 105 0 yo_req two_clients)
              = (JComment (Comment.to_dict c), 201) /\
            comments (snd (post_comment_route 105 0 yo_req two_clients))
              = comments two_clients ++ [c] /\
            Comment.id c = 10.
Proof.
  destruct (post_route_all_or_nothing 105 0 ann_req two_clients) as [H1 _].
  destruct (post_route_all_or_nothing 105 0 blank_req init) as [H2 _].
  destruct (post_route_all_or_nothing 105 0 yo_req two_clients) as [_ H3].
  split; [apply H1; vm_compute; discriminate|].
  split; [apply H2; vm_compute; discriminate|].
  destruct H3 as (c & Hc & Htbl); [vm_compute; reflexivity|].
  exists c. split; [exact Hc|]. split; [exact Htbl|].
  vm_compute in Hc. injection Hc as Hid _. symmetry. exact Hid.
Defined.
